(** * Sam TTS server ([tts-server/server.py]): a shallow embedding

    The server answers [POST /v1/audio/speech] with the audio that the
    external [edge-tts] command produces for a (voice, text) pair, keeps
    the produced files in a cache directory under the MD5 of
    ["{voice}:{text}"], and answers [GET /health].

    The handler class [TTSHandler] is embedded as functions on an explicit
    world (the files of the cache directory and the list of calls made to
    the operating system).  What the program takes from outside itself is
    gathered in a record [host]: the environment it reads its constants
    from, [json.loads], [repr], the [edge-tts] process and the memory that
    [rfile.read] can get. *)

From Stdlib Require Import ZArith NArith List Bool Lia.
From Stdlib.Strings Require Import String Ascii Byte.
From stdpp Require Import base option list gmap.
Import ListNotations.
Local Open Scope N_scope.

(** ** Python strings and bytes *)

(** A Python [str] is a sequence of code points, a [bytes] object a
    sequence of bytes. *)
Abbreviation pystr := (list N).
Abbreviation bytes := (list byte).

(** A literal of the source. *)
Definition py (s : string) : pystr :=
  map (fun a => N_of_ascii a) (list_ascii_of_string s).

Definition byte_of_N (n : N) : byte :=
  match Byte.of_N (n mod 256) with Some b => b | None => x00 end.

(** [s.encode()]: UTF-8; a surrogate code point raises
    [UnicodeEncodeError] ([None]). *)
Definition encode_char (c : N) : option bytes :=
  if c <? 0x80 then Some [byte_of_N c]
  else if c <? 0x800 then
    Some [byte_of_N (0xC0 + c / 64); byte_of_N (0x80 + c mod 64)]
  else if (0xD800 <=? c) && (c <=? 0xDFFF) then None
  else if c <? 0x10000 then
    Some [byte_of_N (0xE0 + c / 4096); byte_of_N (0x80 + (c / 64) mod 64);
          byte_of_N (0x80 + c mod 64)]
  else
    Some [byte_of_N (0xF0 + c / 262144); byte_of_N (0x80 + (c / 4096) mod 64);
          byte_of_N (0x80 + (c / 64) mod 64); byte_of_N (0x80 + c mod 64)].

Fixpoint encode (s : pystr) : option bytes :=
  match s with
  | [] => Some []
  | c :: s' =>
      match encode_char c, encode s' with
      | Some b, Some bs => Some (b ++ bs)
      | _, _ => None
      end
  end.

(** [str(n)] for an integer. *)
Definition digit_char (d : N) : N := 48 + d.

Fixpoint digits_fuel (fuel : nat) (n : N) (acc : pystr) : pystr :=
  match fuel with
  | O => acc
  | S fuel' =>
      if n <? 10 then digit_char n :: acc
      else digits_fuel fuel' (n / 10) (digit_char (n mod 10) :: acc)
  end.

Definition str_of_N (n : N) : pystr := digits_fuel (S (N.to_nat (N.log2 n))) n [].

Definition str_of_Z (z : Z) : pystr :=
  match z with
  | Zneg p => 45 :: str_of_N (Npos p)
  | _ => str_of_N (Z.to_N z)
  end.

(** ** [hashlib.md5] *)

Module MD5.

Definition mask32 (x : N) : N := x mod 4294967296.

Definition rotl (x : N) (s : N) : N :=
  mask32 (N.lor (N.shiftl x s) (N.shiftr (mask32 x) (32 - s))).

Definition not32 (x : N) : N := 4294967295 - mask32 x.

Definition K : list N :=
  [ 0xd76aa478; 0xe8c7b756; 0x242070db; 0xc1bdceee;
    0xf57c0faf; 0x4787c62a; 0xa8304613; 0xfd469501;
    0x698098d8; 0x8b44f7af; 0xffff5bb1; 0x895cd7be;
    0x6b901122; 0xfd987193; 0xa679438e; 0x49b40821;
    0xf61e2562; 0xc040b340; 0x265e5a51; 0xe9b6c7aa;
    0xd62f105d; 0x02441453; 0xd8a1e681; 0xe7d3fbc8;
    0x21e1cde6; 0xc33707d6; 0xf4d50d87; 0x455a14ed;
    0xa9e3e905; 0xfcefa3f8; 0x676f02d9; 0x8d2a4c8a;
    0xfffa3942; 0x8771f681; 0x6d9d6122; 0xfde5380c;
    0xa4beea44; 0x4bdecfa9; 0xf6bb4b60; 0xbebfbc70;
    0x289b7ec6; 0xeaa127fa; 0xd4ef3085; 0x04881d05;
    0xd9d4d039; 0xe6db99e5; 0x1fa27cf8; 0xc4ac5665;
    0xf4292244; 0x432aff97; 0xab9423a7; 0xfc93a039;
    0x655b59c3; 0x8f0ccc92; 0xffeff47d; 0x85845dd1;
    0x6fa87e4f; 0xfe2ce6e0; 0xa3014314; 0x4e0811a1;
    0xf7537e82; 0xbd3af235; 0x2ad7d2bb; 0xeb86d391 ].

Definition S_ : list N :=
  [ 7; 12; 17; 22; 7; 12; 17; 22; 7; 12; 17; 22; 7; 12; 17; 22;
    5; 9; 14; 20; 5; 9; 14; 20; 5; 9; 14; 20; 5; 9; 14; 20;
    4; 11; 16; 23; 4; 11; 16; 23; 4; 11; 16; 23; 4; 11; 16; 23;
    6; 10; 15; 21; 6; 10; 15; 21; 6; 10; 15; 21; 6; 10; 15; 21 ].

(** Little-endian bytes of a number, and back. *)
Fixpoint le_bytes (n : nat) (x : N) : bytes :=
  match n with
  | O => []
  | S n' => byte_of_N x :: le_bytes n' (x / 256)
  end.

Fixpoint le_word (bs : bytes) : N :=
  match bs with
  | [] => 0
  | b :: bs' => Byte.to_N b + 256 * le_word bs'
  end.

(** The message followed by [0x80], zeros up to 56 modulo 64, and the
    bit length on 8 bytes. *)
Definition pad (msg : bytes) : bytes :=
  let len := N.of_nat (List.length msg) in
  let zeros := N.to_nat ((119 - len mod 64) mod 64) in
  msg ++ x80 :: repeat x00 zeros ++ le_bytes 8 ((8 * len) mod 18446744073709551616).

Fixpoint words (n : nat) (bs : bytes) : list N :=
  match n with
  | O => []
  | S n' => le_word (firstn 4 bs) :: words n' (skipn 4 bs)
  end.

Record state := { A : N; B : N; C : N; D : N }.

Definition init : state :=
  {| A := 0x67452301; B := 0xefcdab89; C := 0x98badcfe; D := 0x10325476 |}.

Definition round (M : list N) (st : state) (i : nat) : state :=
  let '(f, g) :=
    let b := B st in let c := C st in let d := D st in
    if (i <? 16)%nat then (N.lor (N.land b c) (N.land (not32 b) d), i)
    else if (i <? 32)%nat then
      (N.lor (N.land d b) (N.land (not32 d) c), ((5 * i + 1) mod 16)%nat)
    else if (i <? 48)%nat then
      (N.lxor (N.lxor b c) d, ((3 * i + 5) mod 16)%nat)
    else (N.lxor c (N.lor b (not32 d)), ((7 * i) mod 16)%nat) in
  let f' := mask32 (f + A st + nth i K 0 + nth g M 0) in
  {| A := D st; B := mask32 (B st + rotl f' (nth i S_ 0)); C := B st; D := C st |}.

Definition block (st : state) (chunk : bytes) : state :=
  let M := words 16 chunk in
  let st' := fold_left (round M) (seq 0 64) st in
  {| A := mask32 (A st + A st'); B := mask32 (B st + B st');
     C := mask32 (C st + C st'); D := mask32 (D st + D st') |}.

Fixpoint blocks (n : nat) (st : state) (bs : bytes) : state :=
  match n with
  | O => st
  | S n' => blocks n' (block st (firstn 64 bs)) (skipn 64 bs)
  end.

Definition digest (msg : bytes) : bytes :=
  let p := pad msg in
  let st := blocks (List.length p / 64) init p in
  le_bytes 4 (A st) ++ le_bytes 4 (B st) ++ le_bytes 4 (C st) ++ le_bytes 4 (D st).

Definition hex_digit (d : N) : N := if d <? 10 then 48 + d else 87 + d.

Definition hexdigest (msg : bytes) : pystr :=
  flat_map (fun b => [hex_digit (Byte.to_N b / 16); hex_digit (Byte.to_N b mod 16)])
           (digest msg).

End MD5.

(** ** Values built by [json.loads] *)

(** A Python [float] that was read from a JSON number: the float nearest
    to [digits * 10 ^ exponent], or one of the constants [NaN],
    [Infinity], [-Infinity] that [json.loads] accepts. *)
Inductive pyfloat :=
  | FNaN
  | FInf (negative : bool)
  | FDec (negative : bool) (digits : N) (exponent : Z).

#[local] Set Warnings "-register-all".

(** A [dict] keeps its items in the order of insertion, each key once. *)
Inductive pyval :=
  | PyNone
  | PyBool (b : bool)
  | PyInt (z : Z)
  | PyFloat (x : pyfloat)
  | PyStr (s : pystr)
  | PyList (l : list pyval)
  | PyDict (items : list (pystr * pyval)).

(** [x != 0.0]: a decimal rounds to zero when it is at most [2 ^ -1075],
    half of the least positive float. *)
Definition float_nonzero (x : pyfloat) : bool :=
  match x with
  | FNaN | FInf _ => true
  | FDec _ m e =>
      if (0 <=? e)%Z then negb (m =? 0)
      else 10 ^ Z.to_N (- e) <? m * 2 ^ 1075
  end.

(** [bool(v)], as tested by [not text]. *)
Definition truthy (v : pyval) : bool :=
  match v with
  | PyNone => false
  | PyBool b => b
  | PyInt z => negb (z =? 0)%Z
  | PyFloat x => float_nonzero x
  | PyStr s => negb (Nat.eqb (List.length s) 0)
  | PyList l => negb (Nat.eqb (List.length l) 0)
  | PyDict d => negb (Nat.eqb (List.length d) 0)
  end.

Definition streq (a b : pystr) : bool := bool_decide (a = b).

(** [d.get(key, default)]. *)
Fixpoint dict_lookup (d : list (pystr * pyval)) (key : pystr) : option pyval :=
  match d with
  | [] => None
  | (k, v) :: d' => if streq k key then Some v else dict_lookup d' key
  end.

Definition dict_get (d : list (pystr * pyval)) (key : pystr) (default : pyval) : pyval :=
  match dict_lookup d key with
  | Some v => v
  | None => default
  end.

(** [d[key] = v]: a key that is there keeps its place. *)
Fixpoint dict_set (d : list (pystr * pyval)) (key : pystr) (v : pyval)
  : list (pystr * pyval) :=
  match d with
  | [] => [(key, v)]
  | (k, v') :: d' => if streq k key then (k, v) :: d' else (k, v') :: dict_set d' key v
  end.

(** Exceptions that leave the handler uncaught. *)
Inductive exn :=
  | AttributeError
  | TypeError
  | ValueError
  | UnicodeEncodeError
  | UnicodeDecodeError
  | RecursionError
  | FileNotFoundError
  | OSError
  | OverflowError
  | MemoryError.

(** What [json.loads(body)] does: returns a value, raises
    [json.JSONDecodeError], or raises something else (the body is not text
    in the encoding it announces, the nesting is too deep, ...). *)
Inductive loads_result :=
  | Loaded (data : pyval)
  | JSONDecodeError
  | LoadsRaised (e : exn).

(** ** Small library functions the handler calls *)

(** [os.path.join(a, b)] on POSIX. *)
Definition os_path_join (a b : pystr) : pystr :=
  match b with
  | 47 :: _ => b
  | _ =>
      match last a with
      | None => b
      | Some 47 => a ++ b
      | Some _ => a ++ 47 :: b
      end
  end.

(** [int(s)] for the text of a header (code points below 256): blanks
    around, an optional sign, decimal digits, single underscores between
    digits.  [None] is [ValueError].  The blanks of [int] are those of ASCII
    and the spaces beyond ASCII. *)
Definition isspace (c : N) : bool :=
  ((9 <=? c) && (c <=? 13)) || (c =? 32) || (c =? 0x85) || (c =? 0xA0).

Definition isdigit (c : N) : bool := (48 <=? c) && (c <=? 57).

Fixpoint lstrip (s : pystr) : pystr :=
  match s with
  | c :: s' => if isspace c then lstrip s' else s
  | [] => []
  end.

Definition strip (s : pystr) : pystr := rev (lstrip (rev (lstrip s))).

Definition shift_digit (a c : N) : N := 10 * a + (c - 48).

(** [digits_value acc after_digit s]: [after_digit] tells whether the
    previous character was a digit, so that an underscore may follow. *)
Fixpoint digits_value (acc : N) (after_digit : bool) (s : pystr) : option N :=
  match s with
  | [] => if after_digit then Some acc else None
  | c :: s' =>
      if isdigit c then digits_value (shift_digit acc c) true s'
      else if (c =? 95) && after_digit then
        match s' with
        | d :: _ => if isdigit d then digits_value acc false s' else None
        | [] => None
        end
      else None
  end.

(** [int] refuses more digits than [sys.get_int_max_str_digits()], 4300
    unless the interpreter is told otherwise. *)
Definition max_str_digits : nat := 4300.

Definition int_digits (ds : pystr) : option N :=
  if (List.length (List.filter isdigit ds) <=? max_str_digits)%nat
  then digits_value 0 false ds
  else None.

Definition py_int (s : pystr) : option Z :=
  match strip s with
  | 45 :: ds => (fun n => (- Z.of_N n)%Z) <$> int_digits ds
  | 43 :: ds => Z.of_N <$> int_digits ds
  | ds => Z.of_N <$> int_digits ds
  end.

(** [json.dumps(s)] for a string, with the default [ensure_ascii]. *)
Definition hex4 (n : N) : pystr :=
  [MD5.hex_digit ((n / 4096) mod 16); MD5.hex_digit ((n / 256) mod 16);
   MD5.hex_digit ((n / 16) mod 16); MD5.hex_digit (n mod 16)].

Definition escape_char (c : N) : pystr :=
  if c =? 34 then [92; 34]
  else if c =? 92 then [92; 92]
  else if c =? 10 then py "\n"
  else if c =? 13 then py "\r"
  else if c =? 9 then py "\t"
  else if c =? 8 then py "\b"
  else if c =? 12 then py "\f"
  else if (32 <=? c) && (c <=? 126) then [c]
  else if c <? 0x10000 then py "\u" ++ hex4 c
  else
    let v := c - 0x10000 in
    py "\u" ++ hex4 (0xD800 + (v / 1024) mod 1024) ++
    py "\u" ++ hex4 (0xDC00 + v mod 1024).

Definition dumps_str (s : pystr) : pystr :=
  34 :: flat_map escape_char s ++ [34].

(** ** The world the handler runs in *)

(** The calls that reach the operating system, in the handler's words. *)
Inductive syscall :=
  | os_path_exists (p : pystr)
  | subprocess_run (argv : list pystr)
  | open_rb (p : pystr).

(** [files]: the regular files, by path.  [calls]: the calls made so far,
    the latest first. *)
Record world := { files : gmap pystr bytes; calls : list syscall }.

Definition call (c : syscall) (w : world) : world :=
  {| files := files w; calls := c :: calls w |}.

(** How [subprocess.run([... "--write-media", path], timeout=30)] ends.
    [media] is the content of the file at [path] when the process has
    created it (whole, or the part written before the process stopped), and
    [None] when it has not. *)
Inductive proc_result :=
  | Completed (returncode : Z) (stderr : pystr) (media : option bytes)
  | TimeoutExpired (media : option bytes)
  | RunRaised (e : exn) (media : option bytes).

Definition write_media (p : pystr) (media : option bytes) (w : world) : world :=
  match media with
  | Some b => {| files := <[p := b]> (files w); calls := calls w |}
  | None => w
  end.

(** A request as [BaseHTTPRequestHandler] hands it to [do_GET] and
    [do_POST]: [self.command], [self.path], the [Content-Length] header
    when there is one (its text, read as ISO-8859-1), and the bytes that
    the client sends after the headers before it stops sending. *)
Record request := {
  command : pystr;
  path : pystr;
  Content_Length : option pystr;
  rfile : bytes
}.

(** What the handler does for the client.  [Response status headers body]:
    it calls [send_response(status)], [send_header] for each of [headers],
    [end_headers()] and [wfile.write(body)].  [send_error code message]: it
    calls [self.send_error(code, message)], which answers and returns; the
    page that the base class makes of it is not part of the embedding.
    [Uncaught e]: the exception [e] leaves the handler; nothing has been
    written and the connection is closed. *)
Inductive outcome :=
  | Response (status : N) (headers : list (pystr * pystr)) (body : bytes)
  | send_error (code : N) (message : option pystr)
  | Uncaught (e : exn).

(** [send_error] puts its message into the status line, which
    [send_response_only] encodes with [encode("latin-1", "strict")] before
    anything is written: a message with a code point above U+00FF makes
    [UnicodeEncodeError] leave [send_error].  This is whether the message can
    be encoded.  The messages of the handler are ASCII but for the one of
    line 56, which holds what the engine wrote to [stderr]. *)
Definition latin1 (s : pystr) : bool := forallb (fun c => c <=? 0xFF) s.

(** What the program takes from its host: [os.environ],
    [tempfile.gettempdir()], [json.loads], [repr] on the values that are
    not strings, the [edge-tts] process, which may answer differently
    in different worlds, and whether the interpreter gets the memory for a
    bytes object of a given size. *)
Record host := {
  environ : gmap pystr pystr;
  gettempdir : pystr;
  json_loads : bytes -> loads_result;
  repr : pyval -> pystr;
  edge_tts : world -> list pystr -> proc_result;
  malloc : Z -> bool
}.

(** The largest [Py_ssize_t] and the size of an empty bytes object, on a
    64-bit CPython. *)
Definition PY_SSIZE_T_MAX : Z := 2 ^ 63 - 1.

Definition PyBytesObject_SIZE : Z := 33.

(** [rfile.read(n)] on the buffered reader of the connection, with [data]
    the bytes that the client sends before it stops sending.  A length that
    is no [Py_ssize_t] is [OverflowError], another one below -1 is
    [ValueError], and -1 asks for the whole stream.  For a length above 0
    the reader makes a bytes object of that size: [OverflowError] when the
    object would be larger than [PY_SSIZE_T_MAX], [MemoryError] when the
    host has not the memory; it then reads until it has that many bytes or
    the stream ends. *)
Definition rfile_read (h : host) (data : bytes) (n : Z) : exn + bytes :=
  if ((n <? - 2 ^ 63) || (PY_SSIZE_T_MAX <? n))%Z then inl OverflowError
  else if (n <? -1)%Z then inl ValueError
  else if (n =? -1)%Z then inr data
  else if (n =? 0)%Z then inr []
  else if (PY_SSIZE_T_MAX - PyBytesObject_SIZE <? n)%Z then inl OverflowError
  else if malloc h n then inr (firstn (Z.to_nat n) data)
  else inl MemoryError.

(** ** [TTSHandler] *)

Section TTSHandler.

Variable h : host.

Definition VOICE : pystr :=
  match environ h !! py "TTS_VOICE" with
  | Some v => v
  | None => py "en-US-AvaNeural"
  end.

Definition CACHE_DIR : pystr := os_path_join (gettempdir h) (py "sam-tts-cache").

(** [f"{v}"]. *)
Definition format (v : pyval) : pystr :=
  match v with
  | PyStr s => s
  | _ => repr h v
  end.

(** [hashlib.md5(f"{voice}:{text}".encode()).hexdigest()]; [None] when
    [encode] raises. *)
Definition cache_key (voice text : pyval) : option pystr :=
  MD5.hexdigest <$> encode (format voice ++ py ":" ++ format text).

Definition cache_path (key : pystr) : pystr :=
  os_path_join CACHE_DIR (key ++ py ".mp3").

(** The arguments of [subprocess.run], which converts them one after the
    other before it starts the process: [TypeError] at one that is not a
    string, [ValueError] at a string with a null character.  [voice] comes
    before [text]. *)
Definition run_args (voice text : pyval) (p : pystr) : exn + list pystr :=
  match voice with
  | PyStr v =>
      if existsb (N.eqb 0) v then inl ValueError
      else
        match text with
        | PyStr t =>
            if existsb (N.eqb 0) t then inl ValueError
            else inr [py "edge-tts"; py "--voice"; v; py "--text"; t; py "--write-media"; p]
        | _ => inl TypeError
        end
  | _ => inl TypeError
  end.

(** Lines 48 to 60: generate the file when it is not there.  [Some out]
    is an early [return] after [out]. *)
Definition generate (voice text : pyval) (p : pystr) (w : world)
  : option outcome * world :=
  let w1 := call (os_path_exists p) w in
  match files w !! p with
  | Some _ => (None, w1)
  | None =>
      match run_args voice text p with
      | inl e => (Some (Uncaught e), w1)
      | inr argv =>
          let w2 := call (subprocess_run argv) w1 in
          match edge_tts h w argv with
          | Completed returncode stderr media =>
              if negb (returncode =? 0)%Z
              then
                let message := py "TTS failed: " ++ stderr in
                (Some (if latin1 message then send_error 500 (Some message)
                       else Uncaught UnicodeEncodeError),
                 write_media p media w2)
              else (None, write_media p media w2)
          | TimeoutExpired media =>
              (Some (send_error 500 (Some (py "TTS timeout"))), write_media p media w2)
          | RunRaised e media => (Some (Uncaught e), write_media p media w2)
          end
      end
  end.

Definition audio_headers (audio_data : bytes) : list (pystr * pystr) :=
  [(py "Content-Type", py "audio/mpeg");
   (py "Content-Length", str_of_N (N.of_nat (List.length audio_data)))].

(** Lines 62 to 70: serve the audio. *)
Definition serve_audio (p : pystr) (w : world) : outcome * world :=
  let w1 := call (open_rb p) w in
  match files w !! p with
  | None => (Uncaught FileNotFoundError, w1)
  | Some audio_data => (Response 200 (audio_headers audio_data) audio_data, w1)
  end.

(** Lines 44 to 70, for a [voice] and a [text] that passed the checks. *)
Definition speech (voice text : pyval) (w : world) : outcome * world :=
  match cache_key voice text with
  | None => (Uncaught UnicodeEncodeError, w)
  | Some key =>
      let p := cache_path key in
      match generate voice text p w with
      | (Some out, w') => (out, w')
      | (None, w') => serve_audio p w'
      end
  end.

(** [int(self.headers.get("Content-Length", 0))]. *)
Definition content_length (req : request) : option Z :=
  match Content_Length req with
  | Some s => py_int s
  | None => Some 0%Z
  end.

(** Lines 37 and 38. *)
Definition text_of (data : list (pystr * pyval)) : pyval :=
  dict_get data (py "input") (dict_get data (py "text") (PyStr [])).

Definition voice_of (data : list (pystr * pyval)) : pyval :=
  dict_get data (py "voice") (PyStr VOICE).

(** Lines 28 and 29: the body, or the exception of [int] or of [read]. *)
Definition read_body (req : request) : exn + bytes :=
  match content_length req with
  | Some n => rfile_read h (rfile req) n
  | None => inl ValueError
  end.

Definition do_POST (req : request) (w : world) : outcome * world :=
  if negb (streq (path req) (py "/v1/audio/speech")) then (send_error 404 None, w)
  else
    match read_body req with
    | inl e => (Uncaught e, w)
    | inr body =>
        match json_loads h body with
        | JSONDecodeError => (send_error 400 (Some (py "Invalid JSON")), w)
        | LoadsRaised e => (Uncaught e, w)
        | Loaded (PyDict data) =>
            let text := text_of data in
            let voice := voice_of data in
            if negb (truthy text) then (send_error 400 (Some (py "No text provided")), w)
            else speech voice text w
        | Loaded _ => (Uncaught AttributeError, w)
        end
    end.

(** [json.dumps({"status": "ok", "voice": VOICE})]: the items in the
    order of the literal, [": "] and [", "] between them. *)
Definition health_json : pystr :=
  py "{" ++ dumps_str (py "status") ++ py ": " ++ dumps_str (py "ok") ++ py ", " ++
  dumps_str (py "voice") ++ py ": " ++ dumps_str VOICE ++ py "}".

Definition do_GET (req : request) (w : world) : outcome * world :=
  if streq (path req) (py "/health") then
    match encode health_json with
    | Some body => (Response 200 [(py "Content-Type", py "application/json")] body, w)
    | None => (Uncaught UnicodeEncodeError, w)
    end
  else (send_error 404 None, w).

(** The dispatch that [TTSHandler] inherits from
    [BaseHTTPRequestHandler.handle_one_request]: the method
    [do_<command>] when the class has it, and [send_error(501, ...)]
    otherwise.  [TTSHandler] has [do_GET] and [do_POST]. *)
Definition handle_one_request (req : request) (w : world) : outcome * world :=
  if streq (command req) (py "GET") then do_GET req w
  else if streq (command req) (py "POST") then do_POST req w
  else (send_error 501
          (Some (py "Unsupported method (" ++ repr h (PyStr (command req)) ++ py ")")), w).

(** [server.serve_forever()] on an [HTTPServer]: the requests are handled
    one after the other, each to its end. *)
Fixpoint serve_forever (reqs : list request) (w : world) : list outcome * world :=
  match reqs with
  | [] => ([], w)
  | req :: reqs' =>
      let '(out, w1) := handle_one_request req w in
      let '(outs, w2) := serve_forever reqs' w1 in
      (out :: outs, w2)
  end.

(** A request to [/v1/audio/speech] whose body is the JSON object
    [data]. *)
Definition object_request (req : request) (data : list (pystr * pyval)) : Prop :=
  path req = py "/v1/audio/speech" /\
  exists body, read_body req = inr body /\ json_loads h body = Loaded (PyDict data).

(** Such a request that passes the check of line 40, with the [voice]
    and the [text] that lines 37 and 38 take from it. *)
Definition speech_request (req : request) (voice text : pyval) : Prop :=
  exists data,
    object_request req data /\ voice_of data = voice /\ text_of data = text /\
    truthy text = true.

End TTSHandler.

(** The runs of the engine recorded in a world. *)
Definition is_run (c : syscall) : bool :=
  match c with
  | subprocess_run _ => true
  | _ => false
  end.

Definition invocations (w : world) : nat := List.length (List.filter is_run (calls w)).

Definition media_of (r : proc_result) : option bytes :=
  match r with
  | Completed _ _ media | TimeoutExpired media | RunRaised _ media => media
  end.

(** ** A host for the examples: [json.loads] *)

Module json.

Definition continuation (b : N) : bool := (0x80 <=? b) && (b <=? 0xBF).

Definition cons_ok {A} (c : A) (r : option (list A)) : option (list A) :=
  match r with
  | Some s => Some (c :: s)
  | None => None
  end.

(** [b.decode("utf-8", "surrogatepass")]; [None] is
    [UnicodeDecodeError]. *)
Fixpoint decode_utf8 (bs : list N) : option pystr :=
  match bs with
  | [] => Some []
  | b0 :: r0 =>
      if b0 <? 0x80 then cons_ok b0 (decode_utf8 r0)
      else
        match r0 with
        | [] => None
        | b1 :: r1 =>
            if (0xC2 <=? b0) && (b0 <=? 0xDF) then
              if continuation b1
              then cons_ok ((b0 - 0xC0) * 64 + (b1 - 0x80)) (decode_utf8 r1)
              else None
            else
              match r1 with
              | [] => None
              | b2 :: r2 =>
                  if (0xE0 <=? b0) && (b0 <=? 0xEF) then
                    let c := (b0 - 0xE0) * 4096 + (b1 - 0x80) * 64 + (b2 - 0x80) in
                    if continuation b1 && continuation b2 && (0x800 <=? c)
                    then cons_ok c (decode_utf8 r2)
                    else None
                  else
                    match r2 with
                    | [] => None
                    | b3 :: r3 =>
                        let c := (b0 - 0xF0) * 262144 + (b1 - 0x80) * 4096 +
                                 (b2 - 0x80) * 64 + (b3 - 0x80) in
                        if (0xF0 <=? b0) && (b0 <=? 0xF4) && continuation b1 &&
                           continuation b2 && continuation b3 &&
                           (0x10000 <=? c) && (c <=? 0x10FFFF)
                        then cons_ok c (decode_utf8 r3)
                        else None
                    end
              end
        end
  end.

(** The 16-bit units of a byte string, and the code points they
    spell; a surrogate without its partner stands for itself. *)
Fixpoint units16 (big_endian : bool) (bs : list N) : option (list N) :=
  match bs with
  | [] => Some []
  | [_] => None
  | b0 :: b1 :: r =>
      cons_ok (if big_endian then 256 * b0 + b1 else 256 * b1 + b0) (units16 big_endian r)
  end.

Definition high_surrogate (c : N) : bool := (0xD800 <=? c) && (c <=? 0xDBFF).
Definition low_surrogate (c : N) : bool := (0xDC00 <=? c) && (c <=? 0xDFFF).
Definition join_surrogates (c1 c2 : N) : N :=
  0x10000 + (c1 - 0xD800) * 1024 + (c2 - 0xDC00).

Fixpoint join16 (us : list N) : pystr :=
  match us with
  | [] => []
  | u1 :: r1 =>
      match r1 with
      | u2 :: r2 =>
          if high_surrogate u1 && low_surrogate u2
          then join_surrogates u1 u2 :: join16 r2
          else u1 :: join16 r1
      | [] => [u1]
      end
  end.

Definition decode_utf16 (big_endian : bool) (bs : list N) : option pystr :=
  join16 <$> units16 big_endian bs.

Fixpoint decode_utf32 (big_endian : bool) (bs : list N) : option pystr :=
  match bs with
  | [] => Some []
  | b0 :: b1 :: b2 :: b3 :: r =>
      let c := if big_endian then ((b0 * 256 + b1) * 256 + b2) * 256 + b3
               else ((b3 * 256 + b2) * 256 + b1) * 256 + b0 in
      if c <=? 0x10FFFF then cons_ok c (decode_utf32 big_endian r) else None
  | _ => None
  end.

(** [s.decode(detect_encoding(s), "surrogatepass")], the first step of
    [json.loads] on [bytes]. *)
Definition decode (bs : list N) : option pystr :=
  match bs with
  | 0 :: 0 :: 0xFE :: 0xFF :: r => decode_utf32 true r
  | 0xFF :: 0xFE :: 0 :: 0 :: r => decode_utf32 false r
  | 0xFE :: 0xFF :: r => decode_utf16 true r
  | 0xFF :: 0xFE :: r => decode_utf16 false r
  | 0xEF :: 0xBB :: 0xBF :: r => decode_utf8 r
  | b0 :: b1 :: b2 :: b3 :: _ =>
      if b0 =? 0 then (if b1 =? 0 then decode_utf32 true bs else decode_utf16 true bs)
      else if b1 =? 0 then
        (if (b2 =? 0) && (b3 =? 0) then decode_utf32 false bs else decode_utf16 false bs)
      else decode_utf8 bs
  | [b0; b1] =>
      if b0 =? 0 then decode_utf16 true bs
      else if b1 =? 0 then decode_utf16 false bs
      else decode_utf8 bs
  | _ => decode_utf8 bs
  end.

(** The scanner. *)
Definition whitespace (c : N) : bool :=
  (c =? 32) || (c =? 9) || (c =? 10) || (c =? 13).

Fixpoint skip (s : pystr) : pystr :=
  match s with
  | c :: s' => if whitespace c then skip s' else s
  | [] => []
  end.

Definition hexval (c : N) : option N :=
  if (48 <=? c) && (c <=? 57) then Some (c - 48)
  else if (97 <=? c) && (c <=? 102) then Some (c - 87)
  else if (65 <=? c) && (c <=? 70) then Some (c - 55)
  else None.

Definition hex4val (a b c d : N) : option N :=
  match hexval a, hexval b, hexval c, hexval d with
  | Some x, Some y, Some z, Some t => Some (((x * 16 + y) * 16 + z) * 16 + t)
  | _, _, _, _ => None
  end.

Definition unescape (c : N) : option N :=
  if c =? 34 then Some 34 else if c =? 92 then Some 92 else if c =? 47 then Some 47
  else if c =? 98 then Some 8 else if c =? 102 then Some 12 else if c =? 110 then Some 10
  else if c =? 114 then Some 13 else if c =? 116 then Some 9 else None.

Definition push (c : N) (r : option (pystr * pystr)) : option (pystr * pystr) :=
  match r with
  | Some (str, rest) => Some (c :: str, rest)
  | None => None
  end.

(** [scanstring s]: the string that ends at the next quote, and what
    follows it. *)
Fixpoint scanstring (s : pystr) : option (pystr * pystr) :=
  match s with
  | [] => None
  | c :: r =>
      if c =? 34 then Some ([], r)
      else if c <? 32 then None
      else if c =? 92 then
        match r with
        | [] => None
        | e :: r1 =>
            if e =? 117 then
              match r1 with
              | h1 :: h2 :: h3 :: h4 :: r2 =>
                  match hex4val h1 h2 h3 h4 with
                  | None => None
                  | Some c1 =>
                      match r2 with
                      | b :: u :: g1 :: g2 :: g3 :: g4 :: r3 =>
                          if high_surrogate c1 && (b =? 92) && (u =? 117) then
                            match hex4val g1 g2 g3 g4 with
                            | None => None
                            | Some c2 =>
                                if low_surrogate c2
                                then push (join_surrogates c1 c2) (scanstring r3)
                                else push c1 (scanstring r2)
                            end
                          else push c1 (scanstring r2)
                      | _ => push c1 (scanstring r2)
                      end
                  end
              | _ => None
              end
            else
              match unescape e with
              | Some c' => push c' (scanstring r1)
              | None => None
              end
        end
      else push c (scanstring r)
  end.

Fixpoint span_digits (s : pystr) : pystr * pystr :=
  match s with
  | c :: s' =>
      if isdigit c then let '(ds, r) := span_digits s' in (c :: ds, r) else ([], s)
  | [] => ([], [])
  end.

Definition digits_N (ds : pystr) : N := fold_left (fun a c => 10 * a + (c - 48)) ds 0.

(** What [scan_once] finds: a value and the rest of the text, nothing that
    is JSON ([JSONDecodeError]), or another exception. *)
Inductive scan :=
  | Scanned (v : pyval) (rest : pystr)
  | Expecting
  | Raised (e : exn).

(** A number: an optional minus, then zero or digits that do not start
    with zero, then an optional fraction, then an optional exponent; an
    [int] without fraction and exponent, a [float] otherwise.  [int]
    raises [ValueError] on more than [max_str_digits] digits. *)
Definition match_number (s : pystr) : scan :=
  let '(negative, s0) := match s with 45 :: r => (true, r) | _ => (false, s) end in
  let integer :=
    match s0 with
    | 48 :: r => Some ([48], r)
    | c :: _ => if isdigit c then Some (span_digits s0) else None
    | [] => None
    end in
  match integer with
  | None => Expecting
  | Some (ip, s1) =>
      let '(frac, s2) :=
        match s1 with
        | 46 :: r =>
            match span_digits r with
            | ([], _) => (None, s1)
            | (fs, r') => (Some fs, r')
            end
        | _ => (None, s1)
        end in
      let '(expo, s3) :=
        match s2 with
        | e :: r =>
            if (e =? 101) || (e =? 69) then
              let '(minus, r0) :=
                match r with
                | 45 :: r' => (true, r')
                | 43 :: r' => (false, r')
                | _ => (false, r)
                end in
              match span_digits r0 with
              | ([], _) => (None, s2)
              | (es, r') =>
                  (Some (if minus then (- Z.of_N (digits_N es))%Z else Z.of_N (digits_N es)), r')
              end
            else (None, s2)
        | [] => (None, s2)
        end in
      match frac, expo with
      | None, None =>
          if (List.length ip <=? max_str_digits)%nat
          then Scanned
                 (PyInt (if negative then (- Z.of_N (digits_N ip))%Z else Z.of_N (digits_N ip)))
                 s3
          else Raised ValueError
      | _, _ =>
          let fs := match frac with Some fs => fs | None => [] end in
          let e := match expo with Some e => e | None => 0%Z end in
          Scanned (PyFloat (FDec negative (digits_N (ip ++ fs))
                              (e - Z.of_nat (List.length fs))%Z)) s3
      end
  end.

Fixpoint strip_prefix (p s : pystr) : option pystr :=
  match p, s with
  | [], _ => Some s
  | a :: p', b :: s' => if a =? b then strip_prefix p' s' else None
  | _ :: _, [] => None
  end.

Definition literal (s : pystr) : scan :=
  match strip_prefix (py "null") s with Some r => Scanned PyNone r | None =>
  match strip_prefix (py "true") s with Some r => Scanned (PyBool true) r | None =>
  match strip_prefix (py "false") s with Some r => Scanned (PyBool false) r | None =>
  match strip_prefix (py "NaN") s with Some r => Scanned (PyFloat FNaN) r | None =>
  match strip_prefix (py "Infinity") s with Some r => Scanned (PyFloat (FInf false)) r | None =>
  match strip_prefix (py "-Infinity") s with Some r => Scanned (PyFloat (FInf true)) r | None =>
  match_number s
  end end end end end end.

(** [scan_once]; [depth] is how many arrays and objects may still be
    entered before the interpreter raises [RecursionError]. *)
Fixpoint scan_once (fuel depth : nat) (s : pystr) {struct fuel} : scan :=
  match fuel with
  | O => Expecting
  | S fuel' =>
      match s with
      | 34 :: r =>
          match scanstring r with
          | Some (str, r') => Scanned (PyStr str) r'
          | None => Expecting
          end
      | 123 :: r =>
          match depth with
          | O => Raised RecursionError
          | S depth' =>
              match skip r with
              | 125 :: r' => Scanned (PyDict []) r'
              | s' => members fuel' depth' [] s'
              end
          end
      | 91 :: r =>
          match depth with
          | O => Raised RecursionError
          | S depth' =>
              match skip r with
              | 93 :: r' => Scanned (PyList []) r'
              | s' => elements fuel' depth' [] s'
              end
          end
      | _ => literal s
      end
  end
with members (fuel depth : nat) (d : list (pystr * pyval)) (s : pystr) {struct fuel} : scan :=
  match fuel with
  | O => Expecting
  | S fuel' =>
      match s with
      | 34 :: r =>
          match scanstring r with
          | None => Expecting
          | Some (key, r1) =>
              match skip r1 with
              | 58 :: r2 =>
                  match scan_once fuel' depth (skip r2) with
                  | Scanned v r3 =>
                      match skip r3 with
                      | 125 :: r4 => Scanned (PyDict (dict_set d key v)) r4
                      | 44 :: r4 => members fuel' depth (dict_set d key v) (skip r4)
                      | _ => Expecting
                      end
                  | other => other
                  end
              | _ => Expecting
              end
          end
      | _ => Expecting
      end
  end
with elements (fuel depth : nat) (acc : list pyval) (s : pystr) {struct fuel} : scan :=
  match fuel with
  | O => Expecting
  | S fuel' =>
      match scan_once fuel' depth s with
      | Scanned v r =>
          match skip r with
          | 93 :: r' => Scanned (PyList (acc ++ [v])) r'
          | 44 :: r' => elements fuel' depth (acc ++ [v]) (skip r')
          | _ => Expecting
          end
      | other => other
      end
  end.

(** [json.loads(body)] in an interpreter that allows [limit] nested
    arrays and objects. *)
Definition loads (limit : nat) (body : bytes) : loads_result :=
  match decode (map Byte.to_N body) with
  | None => LoadsRaised UnicodeDecodeError
  | Some s =>
      match scan_once (2 * List.length s + 2) limit (skip s) with
      | Scanned v r =>
          match skip r with
          | [] => Loaded v
          | _ => JSONDecodeError
          end
      | Expecting => JSONDecodeError
      | Raised e => LoadsRaised e
      end
  end.

End json.

(** ** A host for the examples: [repr] *)

Module builtins.

Local Open Scope Z_scope.

(** A binary64 number [M * 2 ^ E]. *)
Inductive binary64 :=
  | Zero
  | Finite (M E : Z)
  | Infinite.

(** [p / q] rounded to the nearest integer, ties to even. *)
Definition div_even (p q : Z) : Z :=
  let d := p / q in
  let r := p mod q in
  if (q <? 2 * r) || ((q =? 2 * r) && Z.odd d) then d + 1 else d.

(** [ge_scaled p q b k]: is [p / q] at least [b ^ k]? *)
Definition ge_scaled (p q b k : Z) : bool :=
  if 0 <=? k then q * b ^ k <=? p else q <=? p * b ^ (- k).

(** The float nearest to [m * 10 ^ e]. *)
Definition round64 (m e : Z) : binary64 :=
  if m <=? 0 then Zero
  else
    let p := if 0 <=? e then m * 10 ^ e else m in
    let q := if 0 <=? e then 1 else 10 ^ (- e) in
    let k := Z.log2 p - Z.log2 q in
    let lg := if ge_scaled p q 2 k then k else k - 1 in
    let E := Z.max (lg - 52) (-1074) in
    let M := if 0 <=? E then div_even p (q * 2 ^ E) else div_even (p * 2 ^ (- E)) q in
    if M =? 0 then Zero
    else
      let '(M', E') := if 2 ^ 53 <=? M then (M / 2, E + 1) else (M, E) in
      if 971 <? E' then Infinite else Finite M' E'.

Definition same64 (a b : binary64) : bool :=
  match a, b with
  | Zero, Zero | Infinite, Infinite => true
  | Finite M E, Finite M' E' => (M =? M') && (E =? E')
  | _, _ => false
  end.

(** The position [t] of the decimal point: [10 ^ (t - 1) <= p / q < 10 ^ t]. *)
Fixpoint point_up (fuel : nat) (p q t : Z) : Z :=
  match fuel with
  | O => t
  | S fuel' => if ge_scaled p q 10 t then point_up fuel' p q (t + 1) else t
  end.

Fixpoint point_down (fuel : nat) (p q t : Z) : Z :=
  match fuel with
  | O => t
  | S fuel' => if ge_scaled p q 10 (t - 1) then t else point_down fuel' p q (t - 1)
  end.

Definition decimal_point (p q : Z) : Z :=
  let t0 := ((Z.log2 p - Z.log2 q) * 30103) / 100000 in
  point_down 4 p q (point_up 4 p q t0).

(** The candidate with [n] digits closest to [p / q] among those that
    round to [x]: its digits as a number, and its scale. *)
Definition candidate (x : binary64) (p q t : Z) (n : Z) : option (Z * Z) :=
  let s := t - n in
  let num := if 0 <=? s then p else p * 10 ^ (- s) in
  let den := if 0 <=? s then q * 10 ^ s else q in
  let lo := num / den in
  let hi := lo + 1 in
  let near := div_even num den in
  let ok c := same64 (round64 c s) x in
  if ok near then Some (near, s)
  else if ok lo then Some (lo, s)
  else if ok hi then Some (hi, s)
  else None.

Fixpoint shortest (fuel : nat) (x : binary64) (p q t : Z) (n : Z) : Z * Z :=
  match fuel with
  | O => (0, 0)
  | S fuel' =>
      match candidate x p q t n with
      | Some r => r
      | None => shortest fuel' x p q t (n + 1)
      end
  end.

Fixpoint strip_zeros (fuel : nat) (c s : Z) : Z * Z :=
  match fuel with
  | O => (c, s)
  | S fuel' => if (c mod 10 =? 0) && (0 <? c) then strip_zeros fuel' (c / 10) (s + 1) else (c, s)
  end.

Definition zeros (n : Z) : pystr := repeat 48%N (Z.to_nat n).

(** [repr(x)] for a finite float that is not zero, without its sign. *)
Definition repr_finite (M E : Z) : pystr :=
  let p := if 0 <=? E then M * 2 ^ E else M in
  let q := if 0 <=? E then 1 else 2 ^ (- E) in
  let t := decimal_point p q in
  let '(c0, s0) := shortest 17 (Finite M E) p q t 1 in
  let '(c, s) := strip_zeros 20 c0 s0 in
  let ds := str_of_Z c in
  let n := Z.of_nat (List.length ds) in
  let decpt := s + n in
  if (decpt <=? -4) || (16 <? decpt) then
    let ex := decpt - 1 in
    let mant := match ds with
                | d :: [] => [d]
                | d :: rest => d :: 46%N :: rest
                | [] => []
                end in
    let es := str_of_Z (Z.abs ex) in
    mant ++ 101%N :: (if ex <? 0 then 45%N else 43%N) ::
      (if Z.abs ex <? 10 then 48%N :: es else es)
  else if decpt <=? 0 then py "0." ++ zeros (- decpt) ++ ds
  else if n <=? decpt then ds ++ zeros (decpt - n) ++ py ".0"
  else firstn (Z.to_nat decpt) ds ++ 46%N :: skipn (Z.to_nat decpt) ds.

Definition repr_float (x : pyfloat) : pystr :=
  match x with
  | FNaN => py "nan"
  | FInf negative => if negative then py "-inf" else py "inf"
  | FDec negative m e =>
      (if negative then [45%N] else []) ++
      match round64 (Z.of_N m) e with
      | Zero => py "0.0"
      | Infinite => py "inf"
      | Finite M E => repr_finite M E
      end
  end.

Local Open Scope N_scope.

Definition hex2 (n : N) : pystr :=
  [MD5.hex_digit ((n / 16) mod 16); MD5.hex_digit (n mod 16)].

(** The code points that are not printable, as ranges with both ends: those
    of the categories Cc, Cf, Cs, Co, Cn, Zl, Zp and Zs, the space apart, in
    version 14.0.0 of the Unicode database, the one of Python 3.11. *)
Definition not_printable : list (N * N) :=
  [(0x0, 0x1F); (0x7F, 0xA0); (0xAD, 0xAD); (0x378, 0x379); (0x380, 0x383);
   (0x38B, 0x38B); (0x38D, 0x38D); (0x3A2, 0x3A2); (0x530, 0x530); (0x557, 0x558);
   (0x58B, 0x58C); (0x590, 0x590); (0x5C8, 0x5CF); (0x5EB, 0x5EE); (0x5F5, 0x605);
   (0x61C, 0x61C); (0x6DD, 0x6DD); (0x70E, 0x70F); (0x74B, 0x74C); (0x7B2, 0x7BF);
   (0x7FB, 0x7FC); (0x82E, 0x82F); (0x83F, 0x83F); (0x85C, 0x85D); (0x85F, 0x85F);
   (0x86B, 0x86F); (0x88F, 0x897); (0x8E2, 0x8E2); (0x984, 0x984); (0x98D, 0x98E);
   (0x991, 0x992); (0x9A9, 0x9A9); (0x9B1, 0x9B1); (0x9B3, 0x9B5); (0x9BA, 0x9BB);
   (0x9C5, 0x9C6); (0x9C9, 0x9CA); (0x9CF, 0x9D6); (0x9D8, 0x9DB); (0x9DE, 0x9DE);
   (0x9E4, 0x9E5); (0x9FF, 0xA00); (0xA04, 0xA04); (0xA0B, 0xA0E); (0xA11, 0xA12);
   (0xA29, 0xA29); (0xA31, 0xA31); (0xA34, 0xA34); (0xA37, 0xA37); (0xA3A, 0xA3B);
   (0xA3D, 0xA3D); (0xA43, 0xA46); (0xA49, 0xA4A); (0xA4E, 0xA50); (0xA52, 0xA58);
   (0xA5D, 0xA5D); (0xA5F, 0xA65); (0xA77, 0xA80); (0xA84, 0xA84); (0xA8E, 0xA8E);
   (0xA92, 0xA92); (0xAA9, 0xAA9); (0xAB1, 0xAB1); (0xAB4, 0xAB4); (0xABA, 0xABB);
   (0xAC6, 0xAC6); (0xACA, 0xACA); (0xACE, 0xACF); (0xAD1, 0xADF); (0xAE4, 0xAE5);
   (0xAF2, 0xAF8); (0xB00, 0xB00); (0xB04, 0xB04); (0xB0D, 0xB0E); (0xB11, 0xB12);
   (0xB29, 0xB29); (0xB31, 0xB31); (0xB34, 0xB34); (0xB3A, 0xB3B); (0xB45, 0xB46);
   (0xB49, 0xB4A); (0xB4E, 0xB54); (0xB58, 0xB5B); (0xB5E, 0xB5E); (0xB64, 0xB65);
   (0xB78, 0xB81); (0xB84, 0xB84); (0xB8B, 0xB8D); (0xB91, 0xB91); (0xB96, 0xB98);
   (0xB9B, 0xB9B); (0xB9D, 0xB9D); (0xBA0, 0xBA2); (0xBA5, 0xBA7); (0xBAB, 0xBAD);
   (0xBBA, 0xBBD); (0xBC3, 0xBC5); (0xBC9, 0xBC9); (0xBCE, 0xBCF); (0xBD1, 0xBD6);
   (0xBD8, 0xBE5); (0xBFB, 0xBFF); (0xC0D, 0xC0D); (0xC11, 0xC11); (0xC29, 0xC29);
   (0xC3A, 0xC3B); (0xC45, 0xC45); (0xC49, 0xC49); (0xC4E, 0xC54); (0xC57, 0xC57);
   (0xC5B, 0xC5C); (0xC5E, 0xC5F); (0xC64, 0xC65); (0xC70, 0xC76); (0xC8D, 0xC8D);
   (0xC91, 0xC91); (0xCA9, 0xCA9); (0xCB4, 0xCB4); (0xCBA, 0xCBB); (0xCC5, 0xCC5);
   (0xCC9, 0xCC9); (0xCCE, 0xCD4); (0xCD7, 0xCDC); (0xCDF, 0xCDF); (0xCE4, 0xCE5);
   (0xCF0, 0xCF0); (0xCF3, 0xCFF); (0xD0D, 0xD0D); (0xD11, 0xD11); (0xD45, 0xD45);
   (0xD49, 0xD49); (0xD50, 0xD53); (0xD64, 0xD65); (0xD80, 0xD80); (0xD84, 0xD84);
   (0xD97, 0xD99); (0xDB2, 0xDB2); (0xDBC, 0xDBC); (0xDBE, 0xDBF); (0xDC7, 0xDC9);
   (0xDCB, 0xDCE); (0xDD5, 0xDD5); (0xDD7, 0xDD7); (0xDE0, 0xDE5); (0xDF0, 0xDF1);
   (0xDF5, 0xE00); (0xE3B, 0xE3E); (0xE5C, 0xE80); (0xE83, 0xE83); (0xE85, 0xE85);
   (0xE8B, 0xE8B); (0xEA4, 0xEA4); (0xEA6, 0xEA6); (0xEBE, 0xEBF); (0xEC5, 0xEC5);
   (0xEC7, 0xEC7); (0xECE, 0xECF); (0xEDA, 0xEDB); (0xEE0, 0xEFF); (0xF48, 0xF48);
   (0xF6D, 0xF70); (0xF98, 0xF98); (0xFBD, 0xFBD); (0xFCD, 0xFCD); (0xFDB, 0xFFF);
   (0x10C6, 0x10C6); (0x10C8, 0x10CC); (0x10CE, 0x10CF); (0x1249, 0x1249);
   (0x124E, 0x124F); (0x1257, 0x1257); (0x1259, 0x1259); (0x125E, 0x125F);
   (0x1289, 0x1289); (0x128E, 0x128F); (0x12B1, 0x12B1); (0x12B6, 0x12B7);
   (0x12BF, 0x12BF); (0x12C1, 0x12C1); (0x12C6, 0x12C7); (0x12D7, 0x12D7);
   (0x1311, 0x1311); (0x1316, 0x1317); (0x135B, 0x135C); (0x137D, 0x137F);
   (0x139A, 0x139F); (0x13F6, 0x13F7); (0x13FE, 0x13FF); (0x1680, 0x1680);
   (0x169D, 0x169F); (0x16F9, 0x16FF); (0x1716, 0x171E); (0x1737, 0x173F);
   (0x1754, 0x175F); (0x176D, 0x176D); (0x1771, 0x1771); (0x1774, 0x177F);
   (0x17DE, 0x17DF); (0x17EA, 0x17EF); (0x17FA, 0x17FF); (0x180E, 0x180E);
   (0x181A, 0x181F); (0x1879, 0x187F); (0x18AB, 0x18AF); (0x18F6, 0x18FF);
   (0x191F, 0x191F); (0x192C, 0x192F); (0x193C, 0x193F); (0x1941, 0x1943);
   (0x196E, 0x196F); (0x1975, 0x197F); (0x19AC, 0x19AF); (0x19CA, 0x19CF);
   (0x19DB, 0x19DD); (0x1A1C, 0x1A1D); (0x1A5F, 0x1A5F); (0x1A7D, 0x1A7E);
   (0x1A8A, 0x1A8F); (0x1A9A, 0x1A9F); (0x1AAE, 0x1AAF); (0x1ACF, 0x1AFF);
   (0x1B4D, 0x1B4F); (0x1B7F, 0x1B7F); (0x1BF4, 0x1BFB); (0x1C38, 0x1C3A);
   (0x1C4A, 0x1C4C); (0x1C89, 0x1C8F); (0x1CBB, 0x1CBC); (0x1CC8, 0x1CCF);
   (0x1CFB, 0x1CFF); (0x1F16, 0x1F17); (0x1F1E, 0x1F1F); (0x1F46, 0x1F47);
   (0x1F4E, 0x1F4F); (0x1F58, 0x1F58); (0x1F5A, 0x1F5A); (0x1F5C, 0x1F5C);
   (0x1F5E, 0x1F5E); (0x1F7E, 0x1F7F); (0x1FB5, 0x1FB5); (0x1FC5, 0x1FC5);
   (0x1FD4, 0x1FD5); (0x1FDC, 0x1FDC); (0x1FF0, 0x1FF1); (0x1FF5, 0x1FF5);
   (0x1FFF, 0x200F); (0x2028, 0x202F); (0x205F, 0x206F); (0x2072, 0x2073);
   (0x208F, 0x208F); (0x209D, 0x209F); (0x20C1, 0x20CF); (0x20F1, 0x20FF);
   (0x218C, 0x218F); (0x2427, 0x243F); (0x244B, 0x245F); (0x2B74, 0x2B75);
   (0x2B96, 0x2B96); (0x2CF4, 0x2CF8); (0x2D26, 0x2D26); (0x2D28, 0x2D2C);
   (0x2D2E, 0x2D2F); (0x2D68, 0x2D6E); (0x2D71, 0x2D7E); (0x2D97, 0x2D9F);
   (0x2DA7, 0x2DA7); (0x2DAF, 0x2DAF); (0x2DB7, 0x2DB7); (0x2DBF, 0x2DBF);
   (0x2DC7, 0x2DC7); (0x2DCF, 0x2DCF); (0x2DD7, 0x2DD7); (0x2DDF, 0x2DDF);
   (0x2E5E, 0x2E7F); (0x2E9A, 0x2E9A); (0x2EF4, 0x2EFF); (0x2FD6, 0x2FEF);
   (0x2FFC, 0x3000); (0x3040, 0x3040); (0x3097, 0x3098); (0x3100, 0x3104);
   (0x3130, 0x3130); (0x318F, 0x318F); (0x31E4, 0x31EF); (0x321F, 0x321F);
   (0xA48D, 0xA48F); (0xA4C7, 0xA4CF); (0xA62C, 0xA63F); (0xA6F8, 0xA6FF);
   (0xA7CB, 0xA7CF); (0xA7D2, 0xA7D2); (0xA7D4, 0xA7D4); (0xA7DA, 0xA7F1);
   (0xA82D, 0xA82F); (0xA83A, 0xA83F); (0xA878, 0xA87F); (0xA8C6, 0xA8CD);
   (0xA8DA, 0xA8DF); (0xA954, 0xA95E); (0xA97D, 0xA97F); (0xA9CE, 0xA9CE);
   (0xA9DA, 0xA9DD); (0xA9FF, 0xA9FF); (0xAA37, 0xAA3F); (0xAA4E, 0xAA4F);
   (0xAA5A, 0xAA5B); (0xAAC3, 0xAADA); (0xAAF7, 0xAB00); (0xAB07, 0xAB08);
   (0xAB0F, 0xAB10); (0xAB17, 0xAB1F); (0xAB27, 0xAB27); (0xAB2F, 0xAB2F);
   (0xAB6C, 0xAB6F); (0xABEE, 0xABEF); (0xABFA, 0xABFF); (0xD7A4, 0xD7AF);
   (0xD7C7, 0xD7CA); (0xD7FC, 0xF8FF); (0xFA6E, 0xFA6F); (0xFADA, 0xFAFF);
   (0xFB07, 0xFB12); (0xFB18, 0xFB1C); (0xFB37, 0xFB37); (0xFB3D, 0xFB3D);
   (0xFB3F, 0xFB3F); (0xFB42, 0xFB42); (0xFB45, 0xFB45); (0xFBC3, 0xFBD2);
   (0xFD90, 0xFD91); (0xFDC8, 0xFDCE); (0xFDD0, 0xFDEF); (0xFE1A, 0xFE1F);
   (0xFE53, 0xFE53); (0xFE67, 0xFE67); (0xFE6C, 0xFE6F); (0xFE75, 0xFE75);
   (0xFEFD, 0xFF00); (0xFFBF, 0xFFC1); (0xFFC8, 0xFFC9); (0xFFD0, 0xFFD1);
   (0xFFD8, 0xFFD9); (0xFFDD, 0xFFDF); (0xFFE7, 0xFFE7); (0xFFEF, 0xFFFB);
   (0xFFFE, 0xFFFF); (0x1000C, 0x1000C); (0x10027, 0x10027); (0x1003B, 0x1003B);
   (0x1003E, 0x1003E); (0x1004E, 0x1004F); (0x1005E, 0x1007F); (0x100FB, 0x100FF);
   (0x10103, 0x10106); (0x10134, 0x10136); (0x1018F, 0x1018F); (0x1019D, 0x1019F);
   (0x101A1, 0x101CF); (0x101FE, 0x1027F); (0x1029D, 0x1029F); (0x102D1, 0x102DF);
   (0x102FC, 0x102FF); (0x10324, 0x1032C); (0x1034B, 0x1034F); (0x1037B, 0x1037F);
   (0x1039E, 0x1039E); (0x103C4, 0x103C7); (0x103D6, 0x103FF); (0x1049E, 0x1049F);
   (0x104AA, 0x104AF); (0x104D4, 0x104D7); (0x104FC, 0x104FF); (0x10528, 0x1052F);
   (0x10564, 0x1056E); (0x1057B, 0x1057B); (0x1058B, 0x1058B); (0x10593, 0x10593);
   (0x10596, 0x10596); (0x105A2, 0x105A2); (0x105B2, 0x105B2); (0x105BA, 0x105BA);
   (0x105BD, 0x105FF); (0x10737, 0x1073F); (0x10756, 0x1075F); (0x10768, 0x1077F);
   (0x10786, 0x10786); (0x107B1, 0x107B1); (0x107BB, 0x107FF); (0x10806, 0x10807);
   (0x10809, 0x10809); (0x10836, 0x10836); (0x10839, 0x1083B); (0x1083D, 0x1083E);
   (0x10856, 0x10856); (0x1089F, 0x108A6); (0x108B0, 0x108DF); (0x108F3, 0x108F3);
   (0x108F6, 0x108FA); (0x1091C, 0x1091E); (0x1093A, 0x1093E); (0x10940, 0x1097F);
   (0x109B8, 0x109BB); (0x109D0, 0x109D1); (0x10A04, 0x10A04); (0x10A07, 0x10A0B);
   (0x10A14, 0x10A14); (0x10A18, 0x10A18); (0x10A36, 0x10A37); (0x10A3B, 0x10A3E);
   (0x10A49, 0x10A4F); (0x10A59, 0x10A5F); (0x10AA0, 0x10ABF); (0x10AE7, 0x10AEA);
   (0x10AF7, 0x10AFF); (0x10B36, 0x10B38); (0x10B56, 0x10B57); (0x10B73, 0x10B77);
   (0x10B92, 0x10B98); (0x10B9D, 0x10BA8); (0x10BB0, 0x10BFF); (0x10C49, 0x10C7F);
   (0x10CB3, 0x10CBF); (0x10CF3, 0x10CF9); (0x10D28, 0x10D2F); (0x10D3A, 0x10E5F);
   (0x10E7F, 0x10E7F); (0x10EAA, 0x10EAA); (0x10EAE, 0x10EAF); (0x10EB2, 0x10EFF);
   (0x10F28, 0x10F2F); (0x10F5A, 0x10F6F); (0x10F8A, 0x10FAF); (0x10FCC, 0x10FDF);
   (0x10FF7, 0x10FFF); (0x1104E, 0x11051); (0x11076, 0x1107E); (0x110BD, 0x110BD);
   (0x110C3, 0x110CF); (0x110E9, 0x110EF); (0x110FA, 0x110FF); (0x11135, 0x11135);
   (0x11148, 0x1114F); (0x11177, 0x1117F); (0x111E0, 0x111E0); (0x111F5, 0x111FF);
   (0x11212, 0x11212); (0x1123F, 0x1127F); (0x11287, 0x11287); (0x11289, 0x11289);
   (0x1128E, 0x1128E); (0x1129E, 0x1129E); (0x112AA, 0x112AF); (0x112EB, 0x112EF);
   (0x112FA, 0x112FF); (0x11304, 0x11304); (0x1130D, 0x1130E); (0x11311, 0x11312);
   (0x11329, 0x11329); (0x11331, 0x11331); (0x11334, 0x11334); (0x1133A, 0x1133A);
   (0x11345, 0x11346); (0x11349, 0x1134A); (0x1134E, 0x1134F); (0x11351, 0x11356);
   (0x11358, 0x1135C); (0x11364, 0x11365); (0x1136D, 0x1136F); (0x11375, 0x113FF);
   (0x1145C, 0x1145C); (0x11462, 0x1147F); (0x114C8, 0x114CF); (0x114DA, 0x1157F);
   (0x115B6, 0x115B7); (0x115DE, 0x115FF); (0x11645, 0x1164F); (0x1165A, 0x1165F);
   (0x1166D, 0x1167F); (0x116BA, 0x116BF); (0x116CA, 0x116FF); (0x1171B, 0x1171C);
   (0x1172C, 0x1172F); (0x11747, 0x117FF); (0x1183C, 0x1189F); (0x118F3, 0x118FE);
   (0x11907, 0x11908); (0x1190A, 0x1190B); (0x11914, 0x11914); (0x11917, 0x11917);
   (0x11936, 0x11936); (0x11939, 0x1193A); (0x11947, 0x1194F); (0x1195A, 0x1199F);
   (0x119A8, 0x119A9); (0x119D8, 0x119D9); (0x119E5, 0x119FF); (0x11A48, 0x11A4F);
   (0x11AA3, 0x11AAF); (0x11AF9, 0x11BFF); (0x11C09, 0x11C09); (0x11C37, 0x11C37);
   (0x11C46, 0x11C4F); (0x11C6D, 0x11C6F); (0x11C90, 0x11C91); (0x11CA8, 0x11CA8);
   (0x11CB7, 0x11CFF); (0x11D07, 0x11D07); (0x11D0A, 0x11D0A); (0x11D37, 0x11D39);
   (0x11D3B, 0x11D3B); (0x11D3E, 0x11D3E); (0x11D48, 0x11D4F); (0x11D5A, 0x11D5F);
   (0x11D66, 0x11D66); (0x11D69, 0x11D69); (0x11D8F, 0x11D8F); (0x11D92, 0x11D92);
   (0x11D99, 0x11D9F); (0x11DAA, 0x11EDF); (0x11EF9, 0x11FAF); (0x11FB1, 0x11FBF);
   (0x11FF2, 0x11FFE); (0x1239A, 0x123FF); (0x1246F, 0x1246F); (0x12475, 0x1247F);
   (0x12544, 0x12F8F); (0x12FF3, 0x12FFF); (0x1342F, 0x143FF); (0x14647, 0x167FF);
   (0x16A39, 0x16A3F); (0x16A5F, 0x16A5F); (0x16A6A, 0x16A6D); (0x16ABF, 0x16ABF);
   (0x16ACA, 0x16ACF); (0x16AEE, 0x16AEF); (0x16AF6, 0x16AFF); (0x16B46, 0x16B4F);
   (0x16B5A, 0x16B5A); (0x16B62, 0x16B62); (0x16B78, 0x16B7C); (0x16B90, 0x16E3F);
   (0x16E9B, 0x16EFF); (0x16F4B, 0x16F4E); (0x16F88, 0x16F8E); (0x16FA0, 0x16FDF);
   (0x16FE5, 0x16FEF); (0x16FF2, 0x16FFF); (0x187F8, 0x187FF); (0x18CD6, 0x18CFF);
   (0x18D09, 0x1AFEF); (0x1AFF4, 0x1AFF4); (0x1AFFC, 0x1AFFC); (0x1AFFF, 0x1AFFF);
   (0x1B123, 0x1B14F); (0x1B153, 0x1B163); (0x1B168, 0x1B16F); (0x1B2FC, 0x1BBFF);
   (0x1BC6B, 0x1BC6F); (0x1BC7D, 0x1BC7F); (0x1BC89, 0x1BC8F); (0x1BC9A, 0x1BC9B);
   (0x1BCA0, 0x1CEFF); (0x1CF2E, 0x1CF2F); (0x1CF47, 0x1CF4F); (0x1CFC4, 0x1CFFF);
   (0x1D0F6, 0x1D0FF); (0x1D127, 0x1D128); (0x1D173, 0x1D17A); (0x1D1EB, 0x1D1FF);
   (0x1D246, 0x1D2DF); (0x1D2F4, 0x1D2FF); (0x1D357, 0x1D35F); (0x1D379, 0x1D3FF);
   (0x1D455, 0x1D455); (0x1D49D, 0x1D49D); (0x1D4A0, 0x1D4A1); (0x1D4A3, 0x1D4A4);
   (0x1D4A7, 0x1D4A8); (0x1D4AD, 0x1D4AD); (0x1D4BA, 0x1D4BA); (0x1D4BC, 0x1D4BC);
   (0x1D4C4, 0x1D4C4); (0x1D506, 0x1D506); (0x1D50B, 0x1D50C); (0x1D515, 0x1D515);
   (0x1D51D, 0x1D51D); (0x1D53A, 0x1D53A); (0x1D53F, 0x1D53F); (0x1D545, 0x1D545);
   (0x1D547, 0x1D549); (0x1D551, 0x1D551); (0x1D6A6, 0x1D6A7); (0x1D7CC, 0x1D7CD);
   (0x1DA8C, 0x1DA9A); (0x1DAA0, 0x1DAA0); (0x1DAB0, 0x1DEFF); (0x1DF1F, 0x1DFFF);
   (0x1E007, 0x1E007); (0x1E019, 0x1E01A); (0x1E022, 0x1E022); (0x1E025, 0x1E025);
   (0x1E02B, 0x1E0FF); (0x1E12D, 0x1E12F); (0x1E13E, 0x1E13F); (0x1E14A, 0x1E14D);
   (0x1E150, 0x1E28F); (0x1E2AF, 0x1E2BF); (0x1E2FA, 0x1E2FE); (0x1E300, 0x1E7DF);
   (0x1E7E7, 0x1E7E7); (0x1E7EC, 0x1E7EC); (0x1E7EF, 0x1E7EF); (0x1E7FF, 0x1E7FF);
   (0x1E8C5, 0x1E8C6); (0x1E8D7, 0x1E8FF); (0x1E94C, 0x1E94F); (0x1E95A, 0x1E95D);
   (0x1E960, 0x1EC70); (0x1ECB5, 0x1ED00); (0x1ED3E, 0x1EDFF); (0x1EE04, 0x1EE04);
   (0x1EE20, 0x1EE20); (0x1EE23, 0x1EE23); (0x1EE25, 0x1EE26); (0x1EE28, 0x1EE28);
   (0x1EE33, 0x1EE33); (0x1EE38, 0x1EE38); (0x1EE3A, 0x1EE3A); (0x1EE3C, 0x1EE41);
   (0x1EE43, 0x1EE46); (0x1EE48, 0x1EE48); (0x1EE4A, 0x1EE4A); (0x1EE4C, 0x1EE4C);
   (0x1EE50, 0x1EE50); (0x1EE53, 0x1EE53); (0x1EE55, 0x1EE56); (0x1EE58, 0x1EE58);
   (0x1EE5A, 0x1EE5A); (0x1EE5C, 0x1EE5C); (0x1EE5E, 0x1EE5E); (0x1EE60, 0x1EE60);
   (0x1EE63, 0x1EE63); (0x1EE65, 0x1EE66); (0x1EE6B, 0x1EE6B); (0x1EE73, 0x1EE73);
   (0x1EE78, 0x1EE78); (0x1EE7D, 0x1EE7D); (0x1EE7F, 0x1EE7F); (0x1EE8A, 0x1EE8A);
   (0x1EE9C, 0x1EEA0); (0x1EEA4, 0x1EEA4); (0x1EEAA, 0x1EEAA); (0x1EEBC, 0x1EEEF);
   (0x1EEF2, 0x1EFFF); (0x1F02C, 0x1F02F); (0x1F094, 0x1F09F); (0x1F0AF, 0x1F0B0);
   (0x1F0C0, 0x1F0C0); (0x1F0D0, 0x1F0D0); (0x1F0F6, 0x1F0FF); (0x1F1AE, 0x1F1E5);
   (0x1F203, 0x1F20F); (0x1F23C, 0x1F23F); (0x1F249, 0x1F24F); (0x1F252, 0x1F25F);
   (0x1F266, 0x1F2FF); (0x1F6D8, 0x1F6DC); (0x1F6ED, 0x1F6EF); (0x1F6FD, 0x1F6FF);
   (0x1F774, 0x1F77F); (0x1F7D9, 0x1F7DF); (0x1F7EC, 0x1F7EF); (0x1F7F1, 0x1F7FF);
   (0x1F80C, 0x1F80F); (0x1F848, 0x1F84F); (0x1F85A, 0x1F85F); (0x1F888, 0x1F88F);
   (0x1F8AE, 0x1F8AF); (0x1F8B2, 0x1F8FF); (0x1FA54, 0x1FA5F); (0x1FA6E, 0x1FA6F);
   (0x1FA75, 0x1FA77); (0x1FA7D, 0x1FA7F); (0x1FA87, 0x1FA8F); (0x1FAAD, 0x1FAAF);
   (0x1FABB, 0x1FABF); (0x1FAC6, 0x1FACF); (0x1FADA, 0x1FADF); (0x1FAE8, 0x1FAEF);
   (0x1FAF7, 0x1FAFF); (0x1FB93, 0x1FB93); (0x1FBCB, 0x1FBEF); (0x1FBFA, 0x1FFFF);
   (0x2A6E0, 0x2A6FF); (0x2B739, 0x2B73F); (0x2B81E, 0x2B81F); (0x2CEA2, 0x2CEAF);
   (0x2EBE1, 0x2F7FF); (0x2FA1E, 0x2FFFF); (0x3134B, 0xE00FF); (0xE01F0, 0x10FFFF)].

(** [str.isprintable] on one character. *)
Definition isprintable (c : N) : bool :=
  negb (existsb (fun r => (fst r <=? c) && (c <=? snd r)) not_printable).

Definition repr_char (quote c : N) : pystr :=
  if (c =? quote) || (c =? 92) then [92; c]
  else if c =? 9 then py "\t"
  else if c =? 10 then py "\n"
  else if c =? 13 then py "\r"
  else if isprintable c then [c]
  else if c <? 0x100 then py "\x" ++ hex2 c
  else if c <? 0x10000 then py "\u" ++ hex4 c
  else py "\U" ++ hex4 (c / 65536) ++ hex4 (c mod 65536).

Definition repr_str (s : pystr) : pystr :=
  let quote := if existsb (N.eqb 39) s && negb (existsb (N.eqb 34) s) then 34 else 39 in
  quote :: flat_map (repr_char quote) s ++ [quote].

Fixpoint join (sep : pystr) (l : list pystr) : pystr :=
  match l with
  | [] => []
  | [x] => x
  | x :: l' => x ++ sep ++ join sep l'
  end.

Fixpoint repr (v : pyval) : pystr :=
  match v with
  | PyNone => py "None"
  | PyBool b => if b then py "True" else py "False"
  | PyInt z => str_of_Z z
  | PyFloat x => repr_float x
  | PyStr s => repr_str s
  | PyList l => py "[" ++ join (py ", ") (map repr l) ++ py "]"
  | PyDict d =>
      py "{" ++
      join (py ", ") (map (fun kv => repr_str (fst kv) ++ py ": " ++ repr (snd kv)) d) ++
      py "}"
  end.

End builtins.

(** ** Hosts and requests of the examples *)

(** A host with an empty environment, [/tmp] for temporary files and 4 GiB
    for one bytes object, around a given engine. *)
Definition posix (engine : world -> list pystr -> proc_result) : host :=
  {| environ := ∅;
     gettempdir := py "/tmp";
     json_loads := json.loads 1000;
     repr := builtins.repr;
     edge_tts := engine;
     malloc := fun n => (n <=? 2 ^ 32)%Z |}.

(** An engine that is down: it exits with status 1 and writes nothing. *)
Definition engine_down : world -> list pystr -> proc_result :=
  fun _ _ => Completed 1 (py "no connection") None.

(** An engine that produces the three bytes [ID3]. *)
Definition engine_up : world -> list pystr -> proc_result :=
  fun _ _ => Completed 0 [] (Some [x49; x44; x33]).

(** An engine that is not installed: [subprocess.run] raises
    [FileNotFoundError]. *)
Definition engine_absent : world -> list pystr -> proc_result :=
  fun _ _ => RunRaised FileNotFoundError None.

(** An engine that is down and says so with a cross (U+2717) before its
    message. *)
Definition engine_garbled : world -> list pystr -> proc_result :=
  fun _ _ => Completed 1 (0x2717 :: py " no connection") None.

(** An engine that needs too long the first time it runs: it is stopped
    after the first of the three bytes. *)
Definition engine_slow : world -> list pystr -> proc_result :=
  fun w _ =>
    match invocations w with
    | O => TimeoutExpired (Some [x49])
    | _ => Completed 0 [] (Some [x49; x44; x33])
    end.

(** The text of a JSON document, written with apostrophes for its double
    quotes. *)
Definition document (s : string) : bytes :=
  map (fun c => byte_of_N (if c =? 39 then 34 else c)) (py s).

Definition POST (body : bytes) : request :=
  {| command := py "POST";
     path := py "/v1/audio/speech";
     Content_Length := Some (str_of_N (N.of_nat (List.length body)));
     rfile := body |}.

Definition nothing : world := {| files := ∅; calls := [] |}.


(** ** Names of cache files and of runs *)

(** A lowercase hexadecimal digit, as [hexdigest] writes them. *)
Definition is_hex (c : N) : bool := isdigit c || ((97 <=? c) && (c <=? 102)).

(** A surrogate code point, which [encode] refuses. *)
Definition is_surrogate (c : N) : bool := (0xD800 <=? c) && (c <=? 0xDFFF).

(** A path of the form [CACHE_DIR/<32 hexadecimal digits>.mp3]. *)
Definition cache_file (h : host) (q : pystr) : Prop :=
  exists key,
    List.length key = 32%nat /\ Forall (fun c => is_hex c = true) key /\
    q = CACHE_DIR h ++ py "/" ++ key ++ py ".mp3".

(** A call that, when it is a run of the engine, has the arguments of line
    52 for two strings without null character, and for output the file of
    their key. *)
Definition named_run (h : host) (c : syscall) : Prop :=
  match c with
  | subprocess_run argv =>
      exists v t key,
        argv = [py "edge-tts"; py "--voice"; v; py "--text"; t; py "--write-media";
                cache_path h key] /\
        cache_key h (PyStr v) (PyStr t) = Some key /\
        (0 ∉ v) /\ (0 ∉ t)
  | _ => True
  end.

(** A character of a numeral: a digit, an underscore or a sign. *)
Definition numeral_char (c : N) : Prop :=
  isdigit c = true \/ c = 95 \/ c = 43 \/ c = 45.

(** * Properties *)

(** ** Strings and keys *)

Lemma streq_true (a b : pystr) : streq a b = true <-> a = b.
Proof. unfold streq. apply bool_decide_eq_true. Qed.

Lemma streq_refl (a : pystr) : streq a a = true.
Proof. by apply streq_true. Qed.

Lemma streq_false (a b : pystr) : a <> b -> streq a b = false.
Proof. intros Hne. unfold streq. by apply bool_decide_eq_false. Qed.

(** A string without colon is the part of ["{voice}:{text}"] before the
    first colon: two pairs whose voices have no colon are joined to the
    same string only when they are the same pair. *)
Lemma joined_inj (v1 t1 v2 t2 : pystr) :
  58 ∉ v1 -> 58 ∉ v2 ->
  v1 ++ py ":" ++ t1 = v2 ++ py ":" ++ t2 -> v1 = v2 /\ t1 = t2.
Proof.
  revert v2. induction v1 as [|a v1 IH]; intros [|b v2] H1 H2 Heq; simpl in *.
  - by inversion Heq.
  - inversion Heq; subst. exfalso. apply H2. left.
  - inversion Heq; subst. exfalso. apply H1. left.
  - inversion Heq; subst.
    destruct (IH v2) as [-> ->]; try done.
    + intros Hin. apply H1. by right.
    + intros Hin. apply H2. by right.
Qed.

(** [hashlib.md5] on the test suite of RFC 1321. *)
Example md5_empty : MD5.hexdigest [] = py "d41d8cd98f00b204e9800998ecf8427e".
Proof. vm_compute. reflexivity. Qed.

Example md5_abc :
  MD5.hexdigest (map byte_of_N (py "abc")) = py "900150983cd24fb0d6963f7d28e17f72".
Proof. vm_compute. reflexivity. Qed.

Example md5_alphabet :
  MD5.hexdigest (map byte_of_N (py "abcdefghijklmnopqrstuvwxyz")) =
    py "c3fcd3d76192e4007dfb496cca67e13b".
Proof. vm_compute. reflexivity. Qed.

Example md5_two_blocks :
  MD5.hexdigest
    (map byte_of_N
       (py "12345678901234567890123456789012345678901234567890123456789012345678901234567890")) =
    py "57edf4a22be3c955ac49da2e2107b67a".
Proof. vm_compute. reflexivity. Qed.

(** ** The decimal text of a length reads back as the length *)

Lemma digits_fuel_digits (fuel : nat) (n : N) (acc : pystr) :
  Forall (fun c => isdigit c = true) acc ->
  Forall (fun c => isdigit c = true) (digits_fuel fuel n acc).
Proof.
  revert n acc. induction fuel as [|fuel IH]; intros n acc Hacc; [done|].
  simpl. destruct (N.ltb_spec n 10) as [Hn|Hn].
  - constructor; [|done]. unfold isdigit, digit_char.
    apply andb_true_intro. split; apply N.leb_le; lia.
  - apply IH. constructor; [|done]. unfold isdigit, digit_char.
    assert (Hm : n mod 10 < 10) by by apply N.mod_lt.
    revert Hm. generalize (n mod 10). intros m Hm.
    apply andb_true_intro. split; apply N.leb_le; lia.
Qed.

Lemma digits_fuel_length (fuel : nat) (n : N) (acc : pystr) :
  (List.length acc <= List.length (digits_fuel fuel n acc))%nat.
Proof.
  revert n acc. induction fuel as [|fuel IH]; intros n acc; [done|].
  simpl. destruct (n <? 10); simpl; [lia|].
  specialize (IH (n / 10) (digit_char (n mod 10) :: acc)). simpl in IH. lia.
Qed.

Lemma digits_fuel_value (fuel : nat) (n : N) (acc : pystr) :
  n < 2 ^ N.of_nat fuel ->
  fold_left shift_digit (digits_fuel fuel n acc) 0 = fold_left shift_digit acc n.
Proof.
  revert n acc. induction fuel as [|fuel IH]; intros n acc Hn.
  - simpl in *. by replace n with 0 by lia.
  - simpl. destruct (N.ltb_spec n 10) as [H10|H10].
    + simpl. f_equal. unfold shift_digit, digit_char. lia.
    + rewrite IH.
      * simpl. f_equal. unfold shift_digit, digit_char.
        pose proof (N.div_mod n 10) as Hdm.
        revert Hdm. generalize (n / 10) (n mod 10). intros q m Hdm. lia.
      * rewrite Nat2N.inj_succ, N.pow_succ_r' in Hn.
        apply N.Div0.div_lt_upper_bound. lia.
Qed.

Lemma digits_value_digits (ds : pystr) (a : N) (b : bool) :
  Forall (fun c => isdigit c = true) ds -> ds <> [] \/ b = true ->
  digits_value a b ds = Some (fold_left shift_digit ds a).
Proof.
  intros Hds. revert a b. induction Hds as [|c ds Hc _ IH]; intros a b Hb.
  - destruct Hb as [?| ->]; done.
  - simpl. rewrite Hc. apply IH. by right.
Qed.

Lemma lstrip_digits (ds : pystr) :
  Forall (fun c => isdigit c = true) ds -> lstrip ds = ds.
Proof.
  intros [|c ds' Hc _]; [done|]. simpl.
  assert (isspace c = false) as ->; [|done].
  unfold isdigit in Hc. apply andb_prop in Hc as [H1 H2].
  apply N.leb_le in H1. apply N.leb_le in H2. unfold isspace.
  repeat (apply orb_false_intro); try (apply N.eqb_neq; lia).
  apply andb_false_intro2. apply N.leb_gt. lia.
Qed.

Lemma digits_fuel_short (fuel : nat) (n : N) (acc : pystr) :
  (List.length (digits_fuel fuel n acc) <= fuel + List.length acc)%nat.
Proof.
  revert n acc. induction fuel as [|fuel IH]; intros n acc; [done|].
  simpl. destruct (n <? 10); simpl; [lia|].
  specialize (IH (n / 10) (digit_char (n mod 10) :: acc)). simpl in IH. lia.
Qed.

(** [int(str(n)) == n]: the [Content-Length] that line 68 declares reads
    back as the number it was made from. *)
Lemma py_int_str_of_N (n : N) : n < 2 ^ 64 -> py_int (str_of_N n) = Some (Z.of_N n).
Proof.
  intros Hn64. unfold str_of_N.
  assert (Hlog : (N.to_nat (N.log2 n) < 64)%nat).
  { destruct n as [|p]; [simpl; lia|].
    assert (N.log2 (N.pos p) < 64) by (apply N.log2_lt_pow2; lia). lia. }
  pose proof (digits_fuel_short (S (N.to_nat (N.log2 n))) n []) as Hshort.
  set (ds := digits_fuel _ n []) in *.
  assert (Hds : Forall (fun c => isdigit c = true) ds) by by apply digits_fuel_digits.
  assert (Hne : ds <> []).
  { unfold ds. simpl. destruct (n <? 10); [done|].
    pose proof (digits_fuel_length (N.to_nat (N.log2 n)) (n / 10) [digit_char (n mod 10)]) as Hl.
    intros Heq. rewrite Heq in Hl. simpl in Hl. lia. }
  assert (Hv : fold_left shift_digit ds 0 = n).
  { unfold ds. rewrite digits_fuel_value; [done|].
    rewrite Nat2N.inj_succ, N2Nat.id. destruct n as [|p]; [done|].
    apply N.log2_spec. lia. }
  assert (Hd : int_digits ds = Some n).
  { unfold int_digits.
    pose proof (List.filter_length_le isdigit ds) as Hfl.
    destruct (Nat.leb_spec (List.length (List.filter isdigit ds)) max_str_digits) as [_|Hgt].
    - rewrite (digits_value_digits ds 0 false Hds) by by left. by rewrite Hv.
    - unfold max_str_digits in Hgt. simpl in Hshort. lia. }
  unfold py_int, strip.
  rewrite (lstrip_digits ds Hds).
  rewrite (lstrip_digits (rev ds)) by by apply Forall_rev.
  rewrite rev_involutive.
  destruct ds as [|c ds'] eqn:Heq; [done|].
  assert (Hc : isdigit c = true) by by inversion Hds.
  unfold isdigit in Hc. apply andb_prop in Hc as [H1 H2].
  apply N.leb_le in H1. apply N.leb_le in H2.
  destruct c as [|p]; [lia|].
  repeat (destruct p as [p|p|]; try lia; try (by rewrite Hd)).
Qed.

(** ** How a request changes the world *)

Section World.

Variable h : host.

Lemma generate_keeps voice text p w q b :
  files w !! q = Some b -> files (generate h voice text p w).2 !! q = Some b.
Proof.
  intros Hq. unfold generate.
  destruct (files w !! p) as [b'|] eqn:Hp; [done|].
  assert (Hne : p <> q) by congruence.
  destruct (run_args voice text p) as [e|argv]; [done|].
  destruct (edge_tts h w argv) as [rc err [m|]|[m|]|e [m|]];
    try destruct (negb (rc =? 0)%Z); simpl; try done;
    by rewrite lookup_insert_ne.
Qed.

Lemma generate_hit voice text p w b :
  files w !! p = Some b ->
  generate h voice text p w = (None, call (os_path_exists p) w).
Proof. intros Hp. unfold generate. by rewrite Hp. Qed.

Lemma serve_audio_files p w : files (serve_audio p w).2 = files w.
Proof. unfold serve_audio. by destruct (files w !! p). Qed.

Lemma speech_keeps voice text w q b :
  files w !! q = Some b -> files (speech h voice text w).2 !! q = Some b.
Proof.
  intros Hq. unfold speech.
  destruct (cache_key h voice text) as [key|]; [|done].
  pose proof (generate_keeps voice text (cache_path h key) w q b Hq) as Hg.
  destruct (generate h voice text (cache_path h key) w) as [[out|] w']; [done|].
  simpl in *. by rewrite serve_audio_files.
Qed.

Lemma do_POST_keeps req w q b :
  files w !! q = Some b -> files (do_POST h req w).2 !! q = Some b.
Proof.
  intros Hq. unfold do_POST.
  destruct (negb _); [done|].
  destruct (read_body h req) as [e|body]; [done|].
  destruct (json_loads h _) as [[| | | | | |data]| |]; try done.
  destruct (negb _); [done|]. by apply speech_keeps.
Qed.

Lemma do_GET_world req w : (do_GET h req w).2 = w.
Proof.
  unfold do_GET. destruct (streq _ _); [|done]. by destruct (encode _).
Qed.

Lemma handle_one_request_keeps req w q b :
  files w !! q = Some b -> files (handle_one_request h req w).2 !! q = Some b.
Proof.
  intros Hq. unfold handle_one_request.
  destruct (streq (command req) (py "GET")); [by rewrite do_GET_world|].
  destruct (streq _ _); [by apply do_POST_keeps|done].
Qed.

(** A file of the cache, once there, stays as it is. *)
Lemma serve_forever_keeps reqs w q b :
  files w !! q = Some b -> files (serve_forever h reqs w).2 !! q = Some b.
Proof.
  revert w. induction reqs as [|req reqs IH]; intros w Hq; [done|].
  simpl.
  pose proof (handle_one_request_keeps req w q b Hq) as H1.
  destruct (handle_one_request h req w) as [out w1].
  specialize (IH w1 H1).
  by destruct (serve_forever h reqs w1) as [outs w2].
Qed.

(** A request for a file that is there is served from it, without the
    engine. *)
Lemma speech_hit voice text key w b :
  cache_key h voice text = Some key ->
  files w !! cache_path h key = Some b ->
  speech h voice text w =
    (Response 200 (audio_headers b) b,
     call (open_rb (cache_path h key)) (call (os_path_exists (cache_path h key)) w)).
Proof.
  intros Hk Hp. unfold speech. rewrite Hk.
  rewrite (generate_hit _ _ _ _ _ Hp). unfold serve_audio. simpl. by rewrite Hp.
Qed.

Lemma do_POST_object req data w :
  object_request h req data ->
  do_POST h req w =
    if negb (truthy (text_of data))
    then (send_error 400 (Some (py "No text provided")), w)
    else speech h (voice_of h data) (text_of data) w.
Proof.
  intros [Hp (body & Hb & Hl)].
  unfold do_POST. rewrite Hp, streq_refl. simpl. by rewrite Hb, Hl.
Qed.

Lemma do_POST_speech req voice text w :
  speech_request h req voice text -> do_POST h req w = speech h voice text w.
Proof.
  intros (data & Ho & <- & <- & Ht). rewrite (do_POST_object _ _ _ Ho). by rewrite Ht.
Qed.

(** A body that is not JSON is answered 400 and nothing is touched. *)
Lemma do_POST_invalid_json req body w :
  path req = py "/v1/audio/speech" -> read_body h req = inr body ->
  json_loads h body = JSONDecodeError ->
  do_POST h req w = (send_error 400 (Some (py "Invalid JSON")), w).
Proof.
  intros Hp Hb Hl. unfold do_POST. rewrite Hp, streq_refl. simpl. by rewrite Hb, Hl.
Qed.

(** A body that is JSON but not an object makes [data.get] raise. *)
Lemma do_POST_not_object req body data w :
  path req = py "/v1/audio/speech" -> read_body h req = inr body ->
  json_loads h body = Loaded data -> (forall d, data <> PyDict d) ->
  do_POST h req w = (Uncaught AttributeError, w).
Proof.
  intros Hp Hb Hl Hd. unfold do_POST. rewrite Hp, streq_refl. simpl. rewrite Hb, Hl.
  destruct data; try done. by destruct (Hd items).
Qed.

(** A text that is false in a condition is answered 400 and nothing is
    touched. *)
Lemma do_POST_falsy req data w :
  object_request h req data -> truthy (text_of data) = false ->
  do_POST h req w = (send_error 400 (Some (py "No text provided")), w).
Proof. intros Ho Ht. rewrite (do_POST_object _ _ _ Ho). by rewrite Ht. Qed.

Lemma handle_POST req w :
  command req = py "POST" -> handle_one_request h req w = do_POST h req w.
Proof. intros Hc. unfold handle_one_request. by rewrite Hc. Qed.

End World.

(** ** The claims on the cache key and on the checks of [do_POST] *)

(** C4, the claim as stated fails: the key is not injective.  The pairs
    (["a:b"], ["c"]) and (["a"], ["b:c"]) differ and have the same key, the
    MD5 of ["a:b:c"]. *)
Lemma C4_colon_collision :
  (py "a:b", py "c") <> (py "a", py "b:c") /\
  cache_key (posix engine_up) (PyStr (py "a:b")) (PyStr (py "c")) =
    Some (py "02cc8f08398a4f3113b554e8105ebe4c") /\
  cache_key (posix engine_up) (PyStr (py "a")) (PyStr (py "b:c")) =
    Some (py "02cc8f08398a4f3113b554e8105ebe4c").
Proof. split; [discriminate|]. split; vm_compute; reflexivity. Qed.

(** C4, amended: the key of a pair of strings is a function of the string
    ["{voice}:{text}"] alone: it is the same in every host, and two pairs
    with the same such string have the same key. *)
Theorem C4_key_of_joined_string (h h' : host) (v1 t1 v2 t2 : pystr) :
  v1 ++ py ":" ++ t1 = v2 ++ py ":" ++ t2 ->
  cache_key h (PyStr v1) (PyStr t1) = MD5.hexdigest <$> encode (v1 ++ py ":" ++ t1) /\
  cache_key h' (PyStr v2) (PyStr t2) = cache_key h (PyStr v1) (PyStr t1).
Proof. intros Heq. unfold cache_key, format. by rewrite Heq. Qed.

Lemma C4_key_of_joined_string_witness :
  cache_key (posix engine_up) (PyStr (py "a:b")) (PyStr (py "c")) =
    MD5.hexdigest <$> encode (py "a:b" ++ py ":" ++ py "c") /\
  cache_key (posix engine_down) (PyStr (py "a")) (PyStr (py "b:c")) =
    cache_key (posix engine_up) (PyStr (py "a:b")) (PyStr (py "c")).
Proof. apply C4_key_of_joined_string. reflexivity. Defined.

Lemma text_of_missing (data : list (pystr * pyval)) :
  dict_lookup data (py "input") = None -> dict_lookup data (py "text") = None ->
  text_of data = PyStr [].
Proof. intros Hi Ht. unfold text_of, dict_get. by rewrite Hi, Ht. Qed.

Lemma text_of_bound (data : list (pystr * pyval)) (v : pyval) :
  dict_lookup data (py "input") = Some v \/
  (dict_lookup data (py "input") = None /\ dict_lookup data (py "text") = Some v) ->
  text_of data = v.
Proof.
  intros [Hi|[Hi Ht]]; unfold text_of, dict_get; rewrite Hi; [done|by rewrite Ht].
Qed.

(** C6, the claim as stated fails: a text of blanks only, which is empty
    after trimming, is not rejected.  The cache is looked up, the engine is
    run on the blank and its output is served. *)
Lemma C6_blank_text_is_synthesized :
  let body := document "{'input': ' '}" in
  let p := py "/tmp/sam-tts-cache/88679154351ca3ad4ac2ce0fc5be3287.mp3" in
  let r := do_POST (posix engine_up) (POST body) nothing in
  json.loads 1000 body = Loaded (PyDict [(py "input", PyStr (py " "))]) /\
  strip (py " ") = [] /\
  r.1 = Response 200 [(py "Content-Type", py "audio/mpeg"); (py "Content-Length", py "3")]
          [x49; x44; x33] /\
  calls r.2 =
    [open_rb p;
     subprocess_run [py "edge-tts"; py "--voice"; py "en-US-AvaNeural"; py "--text"; py " ";
                     py "--write-media"; p];
     os_path_exists p].
Proof. vm_compute. repeat split; reflexivity. Qed.

(** C6, amended: a request whose body is a JSON object without text (no
    ["input"] and no ["text"]) or with the empty string for text is answered
    400 and nothing is looked up, written or run: the world is as before.
    Nothing is trimmed. *)
Theorem C6_no_text_rejected (h : host) (req : request) (data : list (pystr * pyval))
    (w : world) :
  object_request h req data ->
  (dict_lookup data (py "input") = None /\ dict_lookup data (py "text") = None) \/
  text_of data = PyStr [] ->
  do_POST h req w = (send_error 400 (Some (py "No text provided")), w).
Proof.
  intros Ho Ht. apply (do_POST_falsy h req data w Ho).
  destruct Ht as [[Hi Ht]|Ht]; [rewrite (text_of_missing data Hi Ht)|rewrite Ht]; done.
Qed.

Lemma C6_no_text_rejected_witness :
  object_request (posix engine_up) (POST (document "{}")) [] /\
  do_POST (posix engine_up) (POST (document "{}")) nothing =
    (send_error 400 (Some (py "No text provided")), nothing).
Proof.
  assert (Ho : object_request (posix engine_up) (POST (document "{}")) []).
  { split; [reflexivity|]. exists (document "{}"). split; vm_compute; reflexivity. }
  split; [exact Ho|].
  apply (C6_no_text_rejected (posix engine_up) (POST (document "{}")) [] nothing Ho).
  left. split; reflexivity.
Defined.

(** C7, the code at a body that is JSON but not an object: [data.get]
    raises [AttributeError], which nothing catches; no response is written,
    where the claim says 400. *)
Lemma C7_array_body_is_not_answered :
  json.loads 1000 (document "[]") = Loaded (PyList []) /\
  do_POST (posix engine_up) (POST (document "[]")) nothing = (Uncaught AttributeError, nothing).
Proof. split; vm_compute; reflexivity. Qed.

(** C10: when ["input"], or ["text"] when there is no ["input"], is bound
    to [null], [false], [0] or the empty string, the answer is 400
    ["No text provided"] and the world is as before, which is also the
    answer to a request without these fields. *)
Theorem C10_falsy_text_rejected (h : host) (req : request) (data : list (pystr * pyval))
    (v : pyval) (w : world) :
  object_request h req data ->
  dict_lookup data (py "input") = Some v \/
  (dict_lookup data (py "input") = None /\ dict_lookup data (py "text") = Some v) ->
  v = PyNone \/ v = PyBool false \/ v = PyInt 0 \/ v = PyStr [] ->
  do_POST h req w = (send_error 400 (Some (py "No text provided")), w) /\
  forall req' data',
    object_request h req' data' ->
    dict_lookup data' (py "input") = None -> dict_lookup data' (py "text") = None ->
    do_POST h req' w = do_POST h req w.
Proof.
  intros Ho Hb Hv.
  assert (Hr : do_POST h req w = (send_error 400 (Some (py "No text provided")), w)).
  { apply (do_POST_falsy h req data w Ho). rewrite (text_of_bound data v Hb).
    by destruct Hv as [->|[->|[->| ->]]]. }
  split; [exact Hr|].
  intros req' data' Ho' Hi Ht. rewrite Hr.
  apply (do_POST_falsy h req' data' w Ho'). by rewrite (text_of_missing data' Hi Ht).
Qed.

Lemma C10_falsy_text_rejected_witness :
  let req := POST (document "{'text': null, 'voice': 'en-GB-SoniaNeural'}") in
  object_request (posix engine_up) req
    [(py "text", PyNone); (py "voice", PyStr (py "en-GB-SoniaNeural"))] /\
  do_POST (posix engine_up) req nothing =
    (send_error 400 (Some (py "No text provided")), nothing).
Proof.
  set (req := POST (document "{'text': null, 'voice': 'en-GB-SoniaNeural'}")).
  assert (Ho : object_request (posix engine_up) req
                 [(py "text", PyNone); (py "voice", PyStr (py "en-GB-SoniaNeural"))]).
  { split; [reflexivity|]. exists (rfile req). split; vm_compute; reflexivity. }
  split; [exact Ho|].
  refine (proj1 (C10_falsy_text_rejected (posix engine_up) req _ PyNone nothing Ho _ _)).
  - right. split; reflexivity.
  - by left.
Defined.

(** ** The responses of [POST /v1/audio/speech] *)

(** The message of line 56 can be encoded when [stderr] can. *)
Lemma latin1_failed (stderr : pystr) :
  latin1 (py "TTS failed: " ++ stderr) = latin1 stderr.
Proof. unfold latin1. by rewrite forallb_app. Qed.

Lemma no_null (s : pystr) : 0 ∉ s -> existsb (N.eqb 0) s = false.
Proof.
  intros Hs. destruct (existsb (N.eqb 0) s) eqn:He; [|done].
  apply existsb_exists in He as (c & Hc & Heq). apply N.eqb_eq in Heq. subst c.
  destruct Hs. by apply list_elem_of_In.
Qed.

(** The arguments of the engine for two strings without null character. *)
Lemma run_args_strings (v t p : pystr) :
  0 ∉ v -> 0 ∉ t ->
  run_args (PyStr v) (PyStr t) p =
    inr [py "edge-tts"; py "--voice"; v; py "--text"; t; py "--write-media"; p].
Proof. intros Hv Ht. unfold run_args. by rewrite (no_null v Hv), (no_null t Ht). Qed.

(** The arguments of a run are those of line 52. *)
Lemma run_args_inr (voice text : pyval) (p : pystr) (argv : list pystr) :
  run_args voice text p = inr argv ->
  exists v t,
    voice = PyStr v /\ text = PyStr t /\ (0 ∉ v) /\ (0 ∉ t) /\
    argv = [py "edge-tts"; py "--voice"; v; py "--text"; t; py "--write-media"; p].
Proof.
  unfold run_args. destruct voice as [| | | |v| |]; try done.
  destruct (existsb (N.eqb 0) v) eqn:Hv; [done|].
  destruct text as [| | | |t| |]; try done.
  destruct (existsb (N.eqb 0) t) eqn:Ht; [done|].
  intros Ha. inversion Ha. exists v, t. repeat split; try done.
  - intros Hin. apply list_elem_of_In in Hin.
    assert (existsb (N.eqb 0) v = true); [|congruence].
    apply existsb_exists. exists 0. by split.
  - intros Hin. apply list_elem_of_In in Hin.
    assert (existsb (N.eqb 0) t = true); [|congruence].
    apply existsb_exists. exists 0. by split.
Qed.

(** A string of the examples holds no null character. *)
Ltac no_null_by_computation :=
  let Hin := fresh "Hin" in
  intros Hin; apply list_elem_of_In in Hin; vm_compute in Hin;
  repeat (destruct Hin as [Hin|Hin]; [discriminate Hin|]); exact Hin.

(** C8, the code at a run that fails in another way than lines 55 to 60
    expect.  When the engine is not installed, [subprocess.run] raises
    [FileNotFoundError], which the [except] clause of line 58 does not
    catch.  When the engine exits with 1 after it has written a character
    above U+00FF to [stderr], [send_error] cannot encode its status line and
    raises [UnicodeEncodeError].  Both times the engine has been run, the
    exception leaves the handler and no response is written, where the
    claim says 500 with the diagnostic of the engine. *)
Lemma C8_failed_run_is_not_answered :
  let req := POST (document "{'input': 'hello'}") in
  let p := py "/tmp/sam-tts-cache/7e2ba67e85c4138ee62af73460473c44.mp3" in
  let argv := [py "edge-tts"; py "--voice"; py "en-US-AvaNeural"; py "--text"; py "hello";
               py "--write-media"; p] in
  let ran := call (subprocess_run argv) (call (os_path_exists p) nothing) in
  engine_absent nothing argv = RunRaised FileNotFoundError None /\
  do_POST (posix engine_absent) req nothing = (Uncaught FileNotFoundError, ran) /\
  engine_garbled nothing argv = Completed 1 (0x2717 :: py " no connection") None /\
  latin1 (py "TTS failed: " ++ 0x2717 :: py " no connection") = false /\
  do_POST (posix engine_garbled) req nothing = (Uncaught UnicodeEncodeError, ran).
Proof. repeat split; vm_compute; reflexivity. Qed.

(** X16: the responses to a request whose body is a JSON object, with
    [voice] its ["voice"], or [VOICE] when it has none, with [text] its
    ["input"], or its ["text"] when it has no ["input"], and with [p] the
    file of the key of ([voice], [text]).  A response that is written has
    status 200, the type [audio/mpeg], the number of bytes of its body for
    length (in decimal, which reads back as that number), and the content
    of [p] for body.  A file that is at [p] is served as it is, without a
    run.  When no file is there and [voice] and [text] are strings without
    null character, the engine is run once, with [--voice voice --text text
    --write-media p]: what it has written to [p] is served when it exits
    with 0; when it exits with another status, 500 is answered with
    ["TTS failed: "] and its [stderr], unless the [stderr] holds a character
    above U+00FF, in which case nothing is answered; 500 ["TTS timeout"] is
    answered when it is stopped; and nothing is answered when the run
    raises another exception. *)
Theorem X16_responses_of_a_speech_request (h : host) (req : request)
    (data : list (pystr * pyval)) (voice text : pyval) (key : pystr) (w : world) :
  object_request h req data ->
  dict_lookup data (py "voice") = Some voice \/
  (dict_lookup data (py "voice") = None /\ voice = PyStr (VOICE h)) ->
  dict_lookup data (py "input") = Some text \/
  (dict_lookup data (py "input") = None /\ dict_lookup data (py "text") = Some text) ->
  truthy text = true ->
  cache_key h voice text = Some key ->
  let p := cache_path h key in
  let r := do_POST h req w in
  (forall st hd body,
     r.1 = Response st hd body ->
     st = 200 /\
     hd = [(py "Content-Type", py "audio/mpeg");
           (py "Content-Length", str_of_N (N.of_nat (List.length body)))] /\
     (N.of_nat (List.length body) < 2 ^ 64 ->
      py_int (str_of_N (N.of_nat (List.length body))) = Some (Z.of_nat (List.length body))) /\
     files r.2 !! p = Some body) /\
  (forall b, files w !! p = Some b ->
     r.1 = Response 200 (audio_headers b) b /\ invocations r.2 = invocations w) /\
  (files w !! p = None ->
   forall v t, voice = PyStr v -> text = PyStr t -> 0 ∉ v -> 0 ∉ t ->
     let argv := [py "edge-tts"; py "--voice"; v; py "--text"; t; py "--write-media"; p] in
     calls r.2 = subprocess_run argv :: os_path_exists p :: calls w \/
     calls r.2 = open_rb p :: subprocess_run argv :: os_path_exists p :: calls w) /\
  (files w !! p = None ->
   forall v t, voice = PyStr v -> text = PyStr t -> 0 ∉ v -> 0 ∉ t ->
     match edge_tts h w
             [py "edge-tts"; py "--voice"; v; py "--text"; t; py "--write-media"; p] with
     | Completed returncode stderr media =>
         if (returncode =? 0)%Z
         then match media with
              | Some b => r.1 = Response 200 (audio_headers b) b
              | None => r.1 = Uncaught FileNotFoundError
              end
         else if latin1 stderr
              then r.1 = send_error 500 (Some (py "TTS failed: " ++ stderr))
              else r.1 = Uncaught UnicodeEncodeError
     | TimeoutExpired _ => r.1 = send_error 500 (Some (py "TTS timeout"))
     | RunRaised e _ => r.1 = Uncaught e
     end).
Proof.
  intros Ho Hv Ht Htr Hk p r.
  assert (Hvo : voice_of h data = voice).
  { unfold voice_of, dict_get. by destruct Hv as [->|[-> ->]]. }
  assert (Hto : text_of data = text).
  { unfold text_of, dict_get. by destruct Ht as [->|[-> ->]]. }
  subst r. rewrite (do_POST_object h req data w Ho), Hvo, Hto, Htr. simpl.
  unfold speech. rewrite Hk. fold p. unfold generate, serve_audio.
  assert (Hlen : forall body : bytes,
            N.of_nat (List.length body) < 2 ^ 64 ->
            py_int (str_of_N (N.of_nat (List.length body))) = Some (Z.of_nat (List.length body))).
  { intros body Hb. rewrite (py_int_str_of_N _ Hb). by rewrite nat_N_Z. }
  destruct (files w !! p) as [b0|] eqn:Hp; simpl.
  - rewrite Hp. simpl. split; [|split; [|split]].
    + intros st hd body Hr. inversion Hr; subst. rewrite Hp. repeat split; auto.
    + intros b Hb. by inversion Hb.
    + done.
    + done.
  - destruct (run_args voice text p) as [e|argv] eqn:Ha; simpl.
    { split; [done|]. split; [done|].
      split; intros _ v t -> -> Hv0 Ht0; by rewrite (run_args_strings v t p Hv0 Ht0) in Ha. }
    assert (Hargv : forall v t, voice = PyStr v -> text = PyStr t -> 0 ∉ v -> 0 ∉ t ->
              argv = [py "edge-tts"; py "--voice"; v; py "--text"; t; py "--write-media"; p]).
    { intros v t -> -> Hv0 Ht0. rewrite (run_args_strings v t p Hv0 Ht0) in Ha.
      by inversion Ha. }
    destruct (edge_tts h w argv) as [rc err [m|]|[m|]|e [m|]] eqn:He;
      try destruct (rc =? 0)%Z eqn:Hrc; simpl;
      rewrite ?latin1_failed; try destruct (latin1 err) eqn:Hl; simpl;
      rewrite ?lookup_insert_eq, ?Hp; simpl;
      (split; [intros st hd body Hr; inversion Hr; subst;
                 rewrite ?lookup_insert_eq; repeat split; auto|]);
      (split; [done|]);
      (split; intros _ v t Hv1 Ht1 Hv0 Ht0;
         rewrite <- (Hargv v t Hv1 Ht1 Hv0 Ht0); [by (left + right)|];
         rewrite He, ?Hrc, ?Hl; done).
Qed.

Lemma X16_responses_of_a_speech_request_witness :
  let req := POST (document "{'text': 'hello', 'voice': 'en-GB-SoniaNeural'}") in
  (do_POST (posix engine_up) req nothing).1 =
    Response 200 (audio_headers [x49; x44; x33]) [x49; x44; x33] /\
  (do_POST (posix engine_down) req nothing).1 =
    send_error 500 (Some (py "TTS failed: no connection")).
Proof.
  intros req.
  assert (Hup : forall engine,
            object_request (posix engine) req
              [(py "text", PyStr (py "hello"));
               (py "voice", PyStr (py "en-GB-SoniaNeural"))]).
  { intros engine. split; [reflexivity|]. exists (rfile req). split; vm_compute; reflexivity. }
  split.
  - refine (proj2 (proj2 (proj2
      (X16_responses_of_a_speech_request (posix engine_up) req _
         (PyStr (py "en-GB-SoniaNeural")) (PyStr (py "hello"))
         (py "59bf59a6ff9fb18f72cde1fe810df2ed") nothing (Hup _) _ _ _ _)))
      eq_refl _ _ eq_refl eq_refl _ _).
    + left. reflexivity.
    + right. split; reflexivity.
    + reflexivity.
    + vm_compute. reflexivity.
    + no_null_by_computation.
    + no_null_by_computation.
  - refine (proj2 (proj2 (proj2
      (X16_responses_of_a_speech_request (posix engine_down) req _
         (PyStr (py "en-GB-SoniaNeural")) (PyStr (py "hello"))
         (py "59bf59a6ff9fb18f72cde1fe810df2ed") nothing (Hup _) _ _ _ _)))
      eq_refl _ _ eq_refl eq_refl _ _).
    + left. reflexivity.
    + right. split; reflexivity.
    + reflexivity.
    + vm_compute. reflexivity.
    + no_null_by_computation.
    + no_null_by_computation.
Defined.

(** ** [GET /health] and the other routes *)

Lemma encode_ascii (s : pystr) :
  Forall (fun c => c < 128) s -> encode s = Some (map byte_of_N s).
Proof.
  induction 1 as [|c s Hc _ IH]; [done|].
  simpl. rewrite IH. unfold encode_char.
  by destruct (N.ltb_spec c 128); [|lia].
Qed.

Lemma hex_digit_ascii (d : N) : d < 16 -> MD5.hex_digit d < 128.
Proof. intros Hd. unfold MD5.hex_digit. destruct (d <? 10); lia. Qed.

Lemma hex4_ascii (n : N) : Forall (fun c => c < 128) (hex4 n).
Proof.
  unfold hex4. repeat constructor; apply hex_digit_ascii; by apply N.mod_lt.
Qed.

Lemma escape_char_ascii (c : N) : Forall (fun c => c < 128) (escape_char c).
Proof.
  unfold escape_char.
  repeat (case_match; [repeat constructor; done|]).
  destruct (N.leb_spec 32 c) as [H32|H32]; destruct (N.leb_spec c 126) as [H126|H126];
    cbv [andb].
  1: { constructor; [lia|constructor]. }
  all: case_match;
    [apply Forall_app; split; [by repeat constructor|apply hex4_ascii]
    |apply Forall_app; split; [by repeat constructor|];
     apply Forall_app; split; [apply hex4_ascii|];
     apply Forall_app; split; [by repeat constructor|apply hex4_ascii]].
Qed.

Lemma dumps_str_ascii (s : pystr) : Forall (fun c => c < 128) (dumps_str s).
Proof.
  unfold dumps_str. constructor; [done|]. apply Forall_app. split; [|by repeat constructor].
  induction s as [|c s IH]; simpl; [constructor|].
  apply Forall_app. split; [apply escape_char_ascii|exact IH].
Qed.

Lemma health_json_ascii (h : host) : Forall (fun c => c < 128) (health_json h).
Proof.
  unfold health_json.
  repeat (apply Forall_app; split); try apply dumps_str_ascii; by repeat constructor.
Qed.

(** [GET /health] never fails: the text of [json.dumps] is ASCII. *)
Lemma do_GET_health (h : host) (req : request) (w : world) :
  path req = py "/health" ->
  do_GET h req w =
    (Response 200 [(py "Content-Type", py "application/json")]
       (map byte_of_N (health_json h)), w).
Proof.
  intros Hp. unfold do_GET. rewrite Hp, streq_refl.
  by rewrite (encode_ascii _ (health_json_ascii h)).
Qed.

(** *** The body of [/health] read back *)

Lemma hexval_hex_digit (d : N) : d < 16 -> json.hexval (MD5.hex_digit d) = Some d.
Proof.
  intros Hd. destruct d as [|p]; [reflexivity|].
  repeat (destruct p as [p|p|]; try lia; try reflexivity).
Qed.

Lemma hex4val_hex4 (c : N) :
  c < 65536 ->
  json.hex4val (MD5.hex_digit ((c / 4096) mod 16)) (MD5.hex_digit ((c / 256) mod 16))
               (MD5.hex_digit ((c / 16) mod 16)) (MD5.hex_digit (c mod 16)) = Some c.
Proof.
  intros Hc. unfold json.hex4val.
  rewrite !hexval_hex_digit by by apply N.mod_lt.
  f_equal.
  pose proof (N.div_mod c 16) as H0.
  pose proof (N.div_mod (c / 16) 16) as H1.
  pose proof (N.div_mod (c / 256) 16) as H2.
  pose proof (N.div_mod (c / 4096) 16) as H3.
  replace (c / 16 / 16) with (c / 256) in H1 by by rewrite N.Div0.div_div.
  replace (c / 256 / 16) with (c / 4096) in H2 by by rewrite N.Div0.div_div.
  replace (c / 4096 / 16) with 0 in H3
    by (rewrite N.Div0.div_div; symmetry; by apply N.div_small).
  revert H0 H1 H2 H3.
  generalize (c / 16) (c / 256) (c / 4096) (c mod 16) ((c / 16) mod 16)
             ((c / 256) mod 16) ((c / 4096) mod 16).
  intros. lia.
Qed.

Lemma scanstring_plain (c : N) (rest : pystr) :
  32 <= c -> c <> 34 -> c <> 92 ->
  json.scanstring (c :: rest) = json.push c (json.scanstring rest).
Proof.
  intros H1 H2 H3. simpl.
  destruct (N.eqb_spec c 34); [done|].
  destruct (N.ltb_spec c 32); [lia|].
  by destruct (N.eqb_spec c 92).
Qed.

Lemma scanstring_u (h1 h2 h3 h4 c1 : N) (r2 : pystr) :
  json.hex4val h1 h2 h3 h4 = Some c1 -> json.high_surrogate c1 = false ->
  json.scanstring (92 :: 117 :: h1 :: h2 :: h3 :: h4 :: r2) = json.push c1 (json.scanstring r2).
Proof.
  intros Hh Hs.
  change (json.scanstring (92 :: 117 :: h1 :: h2 :: h3 :: h4 :: r2)) with
    (match json.hex4val h1 h2 h3 h4 with
     | None => None
     | Some c1 =>
         match r2 with
         | b :: u :: g1 :: g2 :: g3 :: g4 :: r3 =>
             if json.high_surrogate c1 && (b =? 92) && (u =? 117) then
               match json.hex4val g1 g2 g3 g4 with
               | None => None
               | Some c2 =>
                   if json.low_surrogate c2
                   then json.push (json.join_surrogates c1 c2) (json.scanstring r3)
                   else json.push c1 (json.scanstring r2)
               end
             else json.push c1 (json.scanstring r2)
         | _ => json.push c1 (json.scanstring r2)
         end
     end).
  rewrite Hh, Hs.
  by destruct r2 as [|b [|u [|g1 [|g2 [|g3 [|g4 r3]]]]]].
Qed.

Lemma scanstring_pair (h1 h2 h3 h4 g1 g2 g3 g4 c1 c2 : N) (r3 : pystr) :
  json.hex4val h1 h2 h3 h4 = Some c1 -> json.high_surrogate c1 = true ->
  json.hex4val g1 g2 g3 g4 = Some c2 -> json.low_surrogate c2 = true ->
  json.scanstring (92 :: 117 :: h1 :: h2 :: h3 :: h4 :: 92 :: 117 :: g1 :: g2 :: g3 :: g4 :: r3) =
    json.push (json.join_surrogates c1 c2) (json.scanstring r3).
Proof.
  intros Hh Hs Hg Hl.
  change (json.scanstring (92 :: 117 :: h1 :: h2 :: h3 :: h4 :: 92 :: 117 :: g1 :: g2 :: g3 :: g4 :: r3))
    with
    (match json.hex4val h1 h2 h3 h4 with
     | None => None
     | Some c1 =>
         if json.high_surrogate c1 && (92 =? 92) && (117 =? 117) then
           match json.hex4val g1 g2 g3 g4 with
           | None => None
           | Some c2 =>
               if json.low_surrogate c2
               then json.push (json.join_surrogates c1 c2) (json.scanstring r3)
               else json.push c1 (json.scanstring (92 :: 117 :: g1 :: g2 :: g3 :: g4 :: r3))
           end
         else json.push c1 (json.scanstring (92 :: 117 :: g1 :: g2 :: g3 :: g4 :: r3))
     end).
  by rewrite Hh, Hs, Hg, Hl.
Qed.

(** [scanstring] undoes the escapes of [json.dumps]. *)
Lemma scanstring_escape (c : N) (rest : pystr) :
  c <= 0x10FFFF -> json.high_surrogate c = false ->
  json.scanstring (escape_char c ++ rest) = json.push c (json.scanstring rest).
Proof.
  intros Hmax Hs. unfold escape_char.
  destruct (N.eqb_spec c 34) as [->|H34]; [reflexivity|].
  destruct (N.eqb_spec c 92) as [->|H92]; [reflexivity|].
  destruct (N.eqb_spec c 10) as [->|H10]; [reflexivity|].
  destruct (N.eqb_spec c 13) as [->|H13]; [reflexivity|].
  destruct (N.eqb_spec c 9) as [->|H9]; [reflexivity|].
  destruct (N.eqb_spec c 8) as [->|H8]; [reflexivity|].
  destruct (N.eqb_spec c 12) as [->|H12]; [reflexivity|].
  destruct (N.leb_spec 32 c) as [H32|H32]; simpl ((_ && _)%bool).
  - destruct (N.leb_spec c 126) as [H126|H126].
    + by apply scanstring_plain.
    + destruct (N.ltb_spec c 65536) as [Hb|Hb].
      * by apply scanstring_u; [apply hex4val_hex4|].
      * set (v := c - 65536).
        assert (Hv : v < 1048576) by lia.
        assert (Hq : v / 1024 < 1024) by (apply N.Div0.div_lt_upper_bound; lia).
        assert (Hqm : (v / 1024) mod 1024 = v / 1024) by by apply N.mod_small.
        assert (Hr : v mod 1024 < 1024) by by apply N.mod_lt.
        pose proof (N.div_mod v 1024) as Hdm.
        rewrite Hqm.
        transitivity (json.push (json.join_surrogates (55296 + v / 1024) (56320 + v mod 1024))
                        (json.scanstring rest)).
        -- apply scanstring_pair.
           ++ apply hex4val_hex4. lia.
           ++ unfold json.high_surrogate. apply andb_true_intro.
              split; apply N.leb_le; lia.
           ++ apply hex4val_hex4. revert Hr. generalize (v mod 1024). intros; lia.
           ++ unfold json.low_surrogate. apply andb_true_intro.
              revert Hr. generalize (v mod 1024). intros; split; apply N.leb_le; lia.
        -- f_equal. unfold json.join_surrogates.
           revert Hdm Hr Hq. generalize (v / 1024) (v mod 1024). intros. lia.
  - destruct (N.ltb_spec c 65536) as [Hb|Hb]; [|lia].
    by apply scanstring_u; [apply hex4val_hex4|].
Qed.

Lemma scanstring_dumps (s rest : pystr) :
  Forall (fun c => c <= 0x10FFFF /\ json.high_surrogate c = false) s ->
  json.scanstring (flat_map escape_char s ++ 34 :: rest) = Some (s, rest).
Proof.
  induction 1 as [|c s [Hc Hs] _ IH]; [reflexivity|].
  simpl flat_map. rewrite <- app_assoc, (scanstring_escape c _ Hc Hs), IH. reflexivity.
Qed.

Lemma to_N_byte_of_N (c : N) : c < 256 -> Byte.to_N (byte_of_N c) = c.
Proof.
  intros Hc. unfold byte_of_N. rewrite N.mod_small by done.
  destruct (Byte.of_N c) as [b|] eqn:Hb.
  - by apply Byte.to_of_N.
  - apply Byte.of_N_None_iff in Hb. lia.
Qed.

Lemma to_N_bytes_of_ascii (s : pystr) :
  Forall (fun c => c < 128) s -> map Byte.to_N (map byte_of_N s) = s.
Proof.
  induction 1 as [|c s Hc _ IH]; [done|].
  simpl. rewrite IH, to_N_byte_of_N; [done|lia].
Qed.

Lemma decode_utf8_ascii (s : pystr) :
  Forall (fun c => c < 128) s -> json.decode_utf8 s = Some s.
Proof.
  induction 1 as [|c s Hc _ IH]; [done|].
  simpl. destruct (N.ltb_spec c 128); [|lia]. by rewrite IH.
Qed.

Lemma scanstring_literal (s rest : pystr) :
  Forall (fun c => 32 <= c /\ c <> 34 /\ c <> 92) s ->
  json.scanstring (s ++ 34 :: rest) = Some (s, rest).
Proof.
  induction 1 as [|c s (H1 & H2 & H3) _ IH]; [reflexivity|].
  simpl app. by rewrite (scanstring_plain c _ H1 H2 H3), IH.
Qed.

(** One member whose value is a string, followed by a comma or by the
    closing brace. *)
Lemma members_string (fuel depth : nat) (d : list (pystr * pyval)) (key val : pystr)
    (r r1 r2 r3 : pystr) :
  json.scanstring r = Some (key, r1) ->
  json.skip r1 = 58 :: r2 ->
  json.skip r2 = 34 :: r3 ->
  forall r4 c r5,
    json.scanstring r3 = Some (val, r4) ->
    json.skip r4 = c :: r5 ->
    json.members (S (S fuel)) depth d (34 :: r) =
      if c =? 125 then json.Scanned (PyDict (dict_set d key (PyStr val))) r5
      else if c =? 44 then json.members (S fuel) depth (dict_set d key (PyStr val)) (json.skip r5)
      else json.Expecting.
Proof.
  intros Hk H1 H2 r4 c r5 Hv H4.
  change (json.members (S (S fuel)) depth d (34 :: r)) with
    (match json.scanstring r with
     | None => json.Expecting
     | Some (key, r1) =>
         match json.skip r1 with
         | 58 :: r2 =>
             match json.scan_once (S fuel) depth (json.skip r2) with
             | json.Scanned v r3 =>
                 match json.skip r3 with
                 | 125 :: r4 => json.Scanned (PyDict (dict_set d key v)) r4
                 | 44 :: r4 => json.members (S fuel) depth (dict_set d key v) (json.skip r4)
                 | _ => json.Expecting
                 end
             | other => other
             end
         | _ => json.Expecting
         end
     end).
  rewrite Hk, H1, H2.
  change (json.scan_once (S fuel) depth (34 :: r3)) with
    (match json.scanstring r3 with
     | Some (str, r') => json.Scanned (PyStr str) r'
     | None => json.Expecting
     end).
  rewrite Hv, H4.
  destruct (N.eqb_spec c 125) as [->|H125]; [done|].
  destruct (N.eqb_spec c 44) as [->|H44]; [done|].
  destruct c as [|p]; [done|].
  repeat (destruct p as [p|p|]; try done).
Qed.

(** The text of [/health], character by character. *)
Lemma health_json_shape (h : host) :
  health_json h =
    123 :: 34 :: py "status" ++ 34 :: 58 :: 32 :: 34 :: py "ok" ++ 34 :: 44 :: 32 ::
    34 :: py "voice" ++ 34 :: 58 :: 32 :: 34 :: flat_map escape_char (VOICE h) ++ 34 :: py "}".
Proof.
  unfold health_json, dumps_str.
  generalize (flat_map escape_char (VOICE h)). intros fm.
  simpl. by rewrite <- app_assoc.
Qed.

(** The body of [/health] is a JSON document: [json.loads] reads it back
    as the object with ["status"] bound to ["ok"] and ["voice"] to [VOICE],
    for a [VOICE] without the first half of a surrogate pair (the value of
    an environment variable has none). *)
Lemma health_body_loads (h : host) (limit : nat) :
  Forall (fun c => c <= 0x10FFFF /\ json.high_surrogate c = false) (VOICE h) ->
  json.loads (S limit) (map byte_of_N (health_json h)) =
    Loaded (PyDict [(py "status", PyStr (py "ok")); (py "voice", PyStr (VOICE h))]).
Proof.
  intros Hv. unfold json.loads.
  rewrite (to_N_bytes_of_ascii _ (health_json_ascii h)).
  assert (Hd : json.decode (health_json h) = Some (health_json h)).
  { rewrite <- (decode_utf8_ascii _ (health_json_ascii h)).
    rewrite health_json_shape. reflexivity. }
  rewrite Hd.
  assert (Hf : exists f, (2 * List.length (health_json h) + 2 = S (S (S (S f))))%nat).
  { exists (2 * List.length (health_json h) - 2)%nat.
    rewrite health_json_shape. simpl. lia. }
  destruct Hf as [f ->].
  rewrite health_json_shape.
  set (fm := flat_map escape_char (VOICE h)).
  set (r3 := fm ++ 34 :: py "}").
  set (r2 := py "voice" ++ 34 :: 58 :: 32 :: 34 :: r3).
  set (r1 := py "ok" ++ 34 :: 44 :: 32 :: 34 :: r2).
  set (r0 := py "status" ++ 34 :: 58 :: 32 :: 34 :: r1).
  change (json.scan_once (S (S (S (S f)))) (S limit) (json.skip (123 :: 34 :: r0))) with
    (json.members (S (S (S f))) limit [] (34 :: r0)).
  assert (Hlit : forall s, s = py "status" \/ s = py "ok" \/ s = py "voice" ->
                   Forall (fun c => 32 <= c /\ c <> 34 /\ c <> 92) s).
  { intros s [->|[->| ->]]; repeat constructor; done. }
  rewrite (members_string (S f) limit [] (py "status") (py "ok") r0
             (58 :: 32 :: 34 :: r1) (32 :: 34 :: r1) r1
             (scanstring_literal _ _ (Hlit _ (or_introl eq_refl))) eq_refl eq_refl
             (44 :: 32 :: 34 :: r2) 44 (32 :: 34 :: r2)
             (scanstring_literal _ _ (Hlit _ (or_intror (or_introl eq_refl)))) eq_refl).
  change (json.skip (32 :: 34 :: r2)) with (34 :: r2).
  cbv [N.eqb Pos.eqb].
  rewrite (members_string f limit _ (py "voice") (VOICE h) r2
             (58 :: 32 :: 34 :: r3) (32 :: 34 :: r3) r3
             (scanstring_literal _ _ (Hlit _ (or_intror (or_intror eq_refl)))) eq_refl eq_refl
             (py "}") 125 [] (scanstring_dumps _ _ Hv) eq_refl).
  reflexivity.
Qed.

(** The body of [/health] when [TTS_VOICE] is not set. *)
Example health_default (engine : world -> list pystr -> proc_result) :
  map byte_of_N (health_json (posix engine)) =
    document "{'status': 'ok', 'voice': 'en-US-AvaNeural'}".
Proof. vm_compute. reflexivity. Qed.

(** C9, the claim as stated fails: a method that [TTSHandler] does not
    define is answered 501 by the base class, not 404. *)
Lemma C9_put_health_is_501 :
  handle_one_request (posix engine_up)
    {| command := py "PUT"; path := py "/health"; Content_Length := None; rfile := [] |}
    nothing = (send_error 501 (Some (py "Unsupported method ('PUT')")), nothing).
Proof. vm_compute. reflexivity. Qed.

(** C9, amended: [GET /health] is answered 200 with the type
    [application/json] and the text of
    [json.dumps({"status": "ok", "voice": VOICE})], which reads back as
    that object; every other [GET] and every [POST] to another path than
    [/v1/audio/speech] is answered 404; every other method is answered 501.
    None of these touches the world. *)
Theorem C9_routes (h : host) (req : request) (w : world) :
  (command req = py "GET" -> path req = py "/health" ->
   handle_one_request h req w =
     (Response 200 [(py "Content-Type", py "application/json")]
        (map byte_of_N (health_json h)), w)) /\
  (Forall (fun c => c <= 0x10FFFF /\ json.high_surrogate c = false) (VOICE h) ->
   json.loads 1000 (map byte_of_N (health_json h)) =
     Loaded (PyDict [(py "status", PyStr (py "ok")); (py "voice", PyStr (VOICE h))])) /\
  (command req = py "GET" -> path req <> py "/health" ->
   handle_one_request h req w = (send_error 404 None, w)) /\
  (command req = py "POST" -> path req <> py "/v1/audio/speech" ->
   handle_one_request h req w = (send_error 404 None, w)) /\
  (command req <> py "GET" -> command req <> py "POST" ->
   exists message, handle_one_request h req w = (send_error 501 message, w)).
Proof.
  unfold handle_one_request. split; [|split; [|split; [|split]]].
  - intros -> Hp. simpl. by apply do_GET_health.
  - apply health_body_loads.
  - intros -> Hp. simpl. unfold do_GET. by rewrite (streq_false _ _ Hp).
  - intros -> Hp. simpl. unfold do_POST. by rewrite (streq_false _ _ Hp).
  - intros Hg Hp. rewrite (streq_false _ _ Hg), (streq_false _ _ Hp). by eexists.
Qed.

(** ** The cache across requests *)

Section Cache.

Variable h : host.

(** What a response says about the world it leaves. *)
Lemma speech_response voice text w st hd B :
  (speech h voice text w).1 = Response st hd B ->
  exists key,
    cache_key h voice text = Some key /\
    files (speech h voice text w).2 !! cache_path h key = Some B /\
    st = 200 /\ hd = audio_headers B.
Proof.
  unfold speech. destruct (cache_key h voice text) as [key|]; [|done].
  intros Hr. exists key. split; [done|]. revert Hr.
  destruct (generate h voice text (cache_path h key) w) as [[out|] w1] eqn:Hg; simpl.
  - intros ->. revert Hg. unfold generate.
    destruct (files w !! _); [done|]. destruct (run_args _ _ _); [done|].
    destruct (edge_tts h w l) as [rc err m|m|e m];
      [destruct (negb _); [destruct (latin1 _)|]| |]; done.
  - unfold serve_audio. destruct (files w1 !! cache_path h key) as [b|] eqn:Hb; [|done].
    simpl. intros Hr. inversion Hr; subst. done.
Qed.

(** The engine has run, has exited with 0 and has written [audio]. *)
Lemma speech_miss_completed voice text key argv stderr audio w :
  cache_key h voice text = Some key ->
  files w !! cache_path h key = None ->
  run_args voice text (cache_path h key) = inr argv ->
  edge_tts h w argv = Completed 0 stderr (Some audio) ->
  let p := cache_path h key in
  speech h voice text w =
    (Response 200 (audio_headers audio) audio,
     call (open_rb p)
       (write_media p (Some audio) (call (subprocess_run argv) (call (os_path_exists p) w)))).
Proof.
  intros Hk Hp Ha He p. subst p. unfold speech. rewrite Hk.
  unfold generate. rewrite Hp, Ha, He. simpl.
  unfold serve_audio. simpl. by rewrite lookup_insert_eq.
Qed.

(** On a miss the engine is run, once, however the run ends. *)
Lemma speech_miss_runs voice text key argv w :
  cache_key h voice text = Some key ->
  files w !! cache_path h key = None ->
  run_args voice text (cache_path h key) = inr argv ->
  invocations (speech h voice text w).2 = S (invocations w).
Proof.
  intros Hk Hp Ha. unfold speech. rewrite Hk. unfold generate. rewrite Hp, Ha.
  destruct (edge_tts h w argv) as [rc err [m|]|[m|]|e [m|]];
    try destruct (negb (rc =? 0)%Z); simpl; try done;
    unfold serve_audio; simpl; rewrite ?lookup_insert_eq, ?Hp; done.
Qed.

(** A run that leaves no file changes no file, and the next request for
    the pair runs the engine again: a failure is not remembered. *)
Lemma speech_run_without_file voice text key argv w :
  cache_key h voice text = Some key ->
  files w !! cache_path h key = None ->
  run_args voice text (cache_path h key) = inr argv ->
  media_of (edge_tts h w argv) = None ->
  let w1 := (speech h voice text w).2 in
  files w1 = files w /\
  invocations w1 = S (invocations w) /\
  invocations (speech h voice text w1).2 = S (invocations w1).
Proof.
  intros Hk Hp Ha Hm w1.
  assert (Hf : files w1 = files w).
  { subst w1. unfold speech. rewrite Hk. unfold generate. rewrite Hp, Ha.
    destruct (edge_tts h w argv) as [rc err m|m|e m]; simpl in Hm; subst m;
      try destruct (negb (rc =? 0)%Z); simpl; try done.
    unfold serve_audio. simpl. by rewrite Hp. }
  split; [done|]. split; [by apply (speech_miss_runs voice text key argv)|].
  apply (speech_miss_runs voice text key argv); [done| |done]. by rewrite Hf.
Qed.

(** Requests for a pair whose file is there are all served from it. *)
Lemma serve_forever_hits reqs voice text key w b :
  Forall (fun req => command req = py "POST" /\ speech_request h req voice text) reqs ->
  cache_key h voice text = Some key ->
  files w !! cache_path h key = Some b ->
  (serve_forever h reqs w).1 = repeat (Response 200 (audio_headers b) b) (List.length reqs) /\
  invocations (serve_forever h reqs w).2 = invocations w.
Proof.
  intros Hall Hk. revert w.
  induction Hall as [|req reqs [Hc Hs] _ IH]; intros w Hp; [done|].
  simpl. rewrite (handle_POST h req w Hc), (do_POST_speech h req voice text w Hs).
  rewrite (speech_hit h voice text key w b Hk Hp).
  destruct (IH (call (open_rb (cache_path h key)) (call (os_path_exists (cache_path h key)) w)) Hp)
    as [Ho Hi].
  destruct (serve_forever h reqs _) as [outs w2]. simpl in *.
  by rewrite Ho, Hi.
Qed.

End Cache.

(** C5: when a request for ([voice], [text]) has been answered with the
    bytes [B], a later request for the same pair, after any requests in
    between, is answered 200 with [B], and the engine is not run for it. *)
Theorem C5_cache_round_trip (h : host) (req req' : request) (voice text : pyval)
    (w : world) (st : N) (hd : list (pystr * pystr)) (B : bytes) (reqs : list request) :
  speech_request h req voice text ->
  speech_request h req' voice text ->
  (do_POST h req w).1 = Response st hd B ->
  let w2 := (serve_forever h reqs (do_POST h req w).2).2 in
  (do_POST h req' w2).1 = Response 200 (audio_headers B) B /\
  invocations (do_POST h req' w2).2 = invocations w2 /\
  files (do_POST h req' w2).2 = files w2.
Proof.
  intros Hs Hs' Hr w2. subst w2.
  rewrite (do_POST_speech h req voice text w Hs) in *.
  destruct (speech_response h voice text w st hd B Hr) as (key & Hk & Hf & _ & _).
  pose proof (serve_forever_keeps h reqs _ _ _ Hf) as Hf2.
  rewrite (do_POST_speech h req' voice text _ Hs').
  by rewrite (speech_hit h voice text key _ B Hk Hf2).
Qed.

Lemma C5_cache_round_trip_witness :
  let req := POST (document "{'input': 'hello', 'voice': 'en-US-AvaNeural'}") in
  let req' := POST (document "{'text': 'hello'}") in
  let other := POST (document "{'input': 'bye'}") in
  let w2 := (serve_forever (posix engine_up) [other]
               (do_POST (posix engine_up) req nothing).2).2 in
  (do_POST (posix engine_up) req' w2).1 =
    Response 200 (audio_headers [x49; x44; x33]) [x49; x44; x33] /\
  invocations (do_POST (posix engine_up) req' w2).2 = invocations w2 /\
  files (do_POST (posix engine_up) req' w2).2 = files w2.
Proof.
  intros req req' other.
  apply (C5_cache_round_trip (posix engine_up) req req'
           (PyStr (py "en-US-AvaNeural")) (PyStr (py "hello")) nothing 200
           (audio_headers [x49; x44; x33])).
  - exists [(py "input", PyStr (py "hello")); (py "voice", PyStr (py "en-US-AvaNeural"))].
    split; [|repeat split; vm_compute; reflexivity].
    split; [reflexivity|]. exists (rfile req). split; vm_compute; reflexivity.
  - exists [(py "text", PyStr (py "hello"))].
    split; [|repeat split; vm_compute; reflexivity].
    split; [reflexivity|]. exists (rfile req'). split; vm_compute; reflexivity.
  - vm_compute. reflexivity.
Defined.

(** ** Several requests for one pair *)

(** C1, the claim as stated fails: the server handles one request at a
    time and keeps no record of a run that failed.  Two requests for the
    same pair, with nothing in the cache and an engine that is down, run the
    engine twice. *)
Lemma C1_failed_run_is_repeated :
  let req := POST (document "{'input': 'hello'}") in
  let r := serve_forever (posix engine_down) [req; req] nothing in
  files nothing !! py "/tmp/sam-tts-cache/7e2ba67e85c4138ee62af73460473c44.mp3" = None /\
  r.1 = [send_error 500 (Some (py "TTS failed: no connection"));
         send_error 500 (Some (py "TTS failed: no connection"))] /\
  invocations r.2 = 2%nat.
Proof. vm_compute. repeat split; reflexivity. Qed.

(** C1, amended: requests are handled one after the other.  When N of them
    ask for the same pair, nothing is in the cache for it and the engine,
    run for the first of them, exits with 0 and has written [audio], then
    the engine is run once and the N answers are 200 with [audio]. *)
Theorem C1_one_run_for_requests_in_turn (h : host) (reqs : list request)
    (voice text : pyval) (key : pystr) (argv : list pystr) (stderr : pystr)
    (audio : bytes) (w : world) :
  reqs <> [] ->
  Forall (fun req => command req = py "POST" /\ speech_request h req voice text) reqs ->
  cache_key h voice text = Some key ->
  files w !! cache_path h key = None ->
  run_args voice text (cache_path h key) = inr argv ->
  edge_tts h w argv = Completed 0 stderr (Some audio) ->
  (serve_forever h reqs w).1 =
    repeat (Response 200 (audio_headers audio) audio) (List.length reqs) /\
  invocations (serve_forever h reqs w).2 = S (invocations w).
Proof.
  intros Hne Hall Hk Hp Ha He.
  destruct Hall as [|req reqs [Hc Hs] Hall]; [done|].
  simpl. rewrite (handle_POST h req w Hc), (do_POST_speech h req voice text w Hs).
  rewrite (speech_miss_completed h voice text key argv stderr audio w Hk Hp Ha He).
  set (w1 := call _ _).
  assert (Hf : files w1 !! cache_path h key = Some audio).
  { subst w1. simpl. by rewrite lookup_insert_eq. }
  destruct (serve_forever_hits h reqs voice text key w1 audio Hall Hk Hf) as [Ho Hi].
  destruct (serve_forever h reqs w1) as [outs w2]. simpl in *.
  rewrite Ho, Hi. split; [done|]. subst w1. by unfold invocations.
Qed.

Lemma C1_one_run_for_requests_in_turn_witness :
  let req := POST (document "{'input': 'hello'}") in
  let req' := POST (document "{'text': 'hello', 'voice': 'en-US-AvaNeural'}") in
  (serve_forever (posix engine_up) [req; req'; req] nothing).1 =
    repeat (Response 200 (audio_headers [x49; x44; x33]) [x49; x44; x33]) 3 /\
  invocations (serve_forever (posix engine_up) [req; req'; req] nothing).2 = 1%nat.
Proof.
  intros req req'.
  assert (Hs : speech_request (posix engine_up) req
                 (PyStr (py "en-US-AvaNeural")) (PyStr (py "hello"))).
  { exists [(py "input", PyStr (py "hello"))].
    split; [|repeat split; vm_compute; reflexivity].
    split; [reflexivity|]. exists (rfile req). split; vm_compute; reflexivity. }
  assert (Hs' : speech_request (posix engine_up) req'
                  (PyStr (py "en-US-AvaNeural")) (PyStr (py "hello"))).
  { exists [(py "text", PyStr (py "hello")); (py "voice", PyStr (py "en-US-AvaNeural"))].
    split; [|repeat split; vm_compute; reflexivity].
    split; [reflexivity|]. exists (rfile req'). split; vm_compute; reflexivity. }
  apply (C1_one_run_for_requests_in_turn (posix engine_up) [req; req'; req]
           (PyStr (py "en-US-AvaNeural")) (PyStr (py "hello"))
           (py "7e2ba67e85c4138ee62af73460473c44")
           [py "edge-tts"; py "--voice"; py "en-US-AvaNeural"; py "--text"; py "hello";
            py "--write-media"; py "/tmp/sam-tts-cache/7e2ba67e85c4138ee62af73460473c44.mp3"]
           [] [x49; x44; x33] nothing).
  - discriminate.
  - repeat constructor; done.
  - vm_compute. reflexivity.
  - vm_compute. reflexivity.
  - vm_compute. reflexivity.
  - reflexivity.
Defined.

(** C2, the code at an engine that is stopped after it has begun to write:
    the part it wrote stays at the path of the key, and the next request
    for the pair is served this part with 200, without the engine being
    run again, where the claim says that no entry exists and that the
    engine is run again. *)
Lemma C2_stopped_run_leaves_an_entry :
  let req := POST (document "{'input': 'hello'}") in
  let p := py "/tmp/sam-tts-cache/7e2ba67e85c4138ee62af73460473c44.mp3" in
  let r1 := do_POST (posix engine_slow) req nothing in
  let r2 := do_POST (posix engine_slow) req r1.2 in
  files nothing !! p = None /\
  r1.1 = send_error 500 (Some (py "TTS timeout")) /\
  files r1.2 !! p = Some [x49] /\
  r2.1 = Response 200 [(py "Content-Type", py "audio/mpeg"); (py "Content-Length", py "1")]
           [x49] /\
  invocations r1.2 = 1%nat /\ invocations r2.2 = 1%nat.
Proof. vm_compute. repeat split; reflexivity. Qed.

(** C3, the claim as stated fails: there is no temporary file.  The engine
    is given the path of the key itself to write to; when it is stopped
    after one byte of three, the entry that the next request reads is this
    one byte. *)
Lemma C3_reader_sees_a_partial_entry :
  let req := POST (document "{'input': 'hello'}") in
  let p := py "/tmp/sam-tts-cache/7e2ba67e85c4138ee62af73460473c44.mp3" in
  let argv := [py "edge-tts"; py "--voice"; py "en-US-AvaNeural"; py "--text"; py "hello";
               py "--write-media"; p] in
  let r1 := do_POST (posix engine_slow) req nothing in
  calls r1.2 = [subprocess_run argv; os_path_exists p] /\
  engine_slow nothing argv = TimeoutExpired (Some [x49]) /\
  engine_slow r1.2 argv = Completed 0 [] (Some [x49; x44; x33]) /\
  files r1.2 !! p = Some [x49] /\
  calls (do_POST (posix engine_slow) req r1.2).2 = open_rb p :: os_path_exists p :: calls r1.2 /\
  (do_POST (posix engine_slow) req r1.2).1 = Response 200 (audio_headers [x49]) [x49].
Proof. vm_compute. repeat split; reflexivity. Qed.

(** C3, amended: nothing is written to a temporary file and renamed.  On
    a miss the engine is run once, with the path of the key itself as the
    file to write; that file is the only one that changes, and it holds
    what the engine left there.  When the engine has exited with 0 after
    writing [b], every later read of the path, after any requests, finds
    the whole of [b]. *)
Theorem C3_engine_writes_the_final_file (h : host) (req : request) (voice text : pyval)
    (key : pystr) (argv : list pystr) (w : world) :
  speech_request h req voice text ->
  cache_key h voice text = Some key ->
  files w !! cache_path h key = None ->
  run_args voice text (cache_path h key) = inr argv ->
  let p := cache_path h key in
  let w' := (do_POST h req w).2 in
  last argv = Some p /\
  List.filter is_run (calls w') = subprocess_run argv :: List.filter is_run (calls w) /\
  files w' = match media_of (edge_tts h w argv) with
             | Some b => <[p := b]> (files w)
             | None => files w
             end /\
  forall stderr b reqs,
    edge_tts h w argv = Completed 0 stderr (Some b) ->
    files (serve_forever h reqs w').2 !! p = Some b.
Proof.
  intros Hs Hk Hp Ha p w'. subst w'.
  rewrite (do_POST_speech h req voice text w Hs).
  assert (Hl : last argv = Some p).
  { by destruct (run_args_inr _ _ _ _ Ha) as (v & t & _ & _ & _ & _ & ->). }
  assert (Hw : List.filter is_run (calls (speech h voice text w).2) =
                 subprocess_run argv :: List.filter is_run (calls w) /\
               files (speech h voice text w).2 =
                 match media_of (edge_tts h w argv) with
                 | Some b => <[p := b]> (files w)
                 | None => files w
                 end).
  { unfold speech. rewrite Hk. unfold generate. rewrite Hp, Ha.
    destruct (edge_tts h w argv) as [rc err [m|]|[m|]|e [m|]];
      try destruct (negb (rc =? 0)%Z); simpl; try done;
      unfold serve_audio; simpl; rewrite ?lookup_insert_eq, ?Hp; done. }
  destruct Hw as [Hc Hf]. repeat split; try done.
  intros stderr b reqs He. apply serve_forever_keeps.
  rewrite Hf, He. simpl. by rewrite lookup_insert_eq.
Qed.

Lemma C3_engine_writes_the_final_file_witness :
  let req := POST (document "{'input': 'hello'}") in
  let p := py "/tmp/sam-tts-cache/7e2ba67e85c4138ee62af73460473c44.mp3" in
  let w' := (do_POST (posix engine_up) req nothing).2 in
  files w' = <[p := [x49; x44; x33]]> ∅ /\
  files (serve_forever (posix engine_up) [req; req] w').2 !! p = Some [x49; x44; x33].
Proof.
  intros req p w'.
  assert (Hs : speech_request (posix engine_up) req
                 (PyStr (py "en-US-AvaNeural")) (PyStr (py "hello"))).
  { exists [(py "input", PyStr (py "hello"))].
    split; [|repeat split; vm_compute; reflexivity].
    split; [reflexivity|]. exists (rfile req). split; vm_compute; reflexivity. }
  destruct (C3_engine_writes_the_final_file (posix engine_up) req
              (PyStr (py "en-US-AvaNeural")) (PyStr (py "hello"))
              (py "7e2ba67e85c4138ee62af73460473c44")
              [py "edge-tts"; py "--voice"; py "en-US-AvaNeural"; py "--text"; py "hello";
               py "--write-media"; p] nothing Hs)
    as (_ & _ & Hf & Hl).
  - vm_compute. reflexivity.
  - vm_compute. reflexivity.
  - vm_compute. reflexivity.
  - split; [exact Hf|]. exact (Hl [] [x49; x44; x33] [req; req] eq_refl).
Defined.

(** * Further properties of the handler *)

(** ** The key as a file name *)

Lemma le_bytes_length (n : nat) (x : N) : List.length (MD5.le_bytes n x) = n.
Proof. revert x. induction n as [|n IH]; intros x; simpl; [done|]. by rewrite IH. Qed.

Lemma digest_length (msg : bytes) : List.length (MD5.digest msg) = 16%nat.
Proof. unfold MD5.digest. by rewrite !length_app, !le_bytes_length. Qed.

Lemma hex_digit_is_hex (d : N) : d < 16 -> is_hex (MD5.hex_digit d) = true.
Proof.
  intros Hd. destruct d as [|p]; [reflexivity|].
  repeat (destruct p as [p|p|]; try lia; try reflexivity).
Qed.

Lemma hexdigest_length (msg : bytes) : List.length (MD5.hexdigest msg) = 32%nat.
Proof.
  unfold MD5.hexdigest. pose proof (digest_length msg) as Hd. revert Hd.
  generalize (MD5.digest msg). intros d Hd.
  assert (Hl : forall l : bytes,
            List.length (flat_map (fun b => [MD5.hex_digit (Byte.to_N b / 16);
                                             MD5.hex_digit (Byte.to_N b mod 16)]) l) =
            (2 * List.length l)%nat).
  { induction l as [|b l IH]; simpl; [done|]. rewrite IH. lia. }
  rewrite Hl, Hd. reflexivity.
Qed.

Lemma hexdigest_hex (msg : bytes) : Forall (fun c => is_hex c = true) (MD5.hexdigest msg).
Proof.
  unfold MD5.hexdigest. generalize (MD5.digest msg). intros d.
  induction d as [|b d IH]; simpl; [constructor|].
  pose proof (Byte.to_N_bounded b) as Hb.
  constructor; [|constructor; [|exact IH]]; apply hex_digit_is_hex.
  - apply N.Div0.div_lt_upper_bound. lia.
  - by apply N.mod_lt.
Qed.

Lemma CACHE_DIR_last (h : host) : last (CACHE_DIR h) = Some 101.
Proof.
  unfold CACHE_DIR, os_path_join.
  change (py "sam-tts-cache") with (py "sam-tts-cach" ++ [101]).
  assert (Hl : forall x : pystr, last (x ++ py "sam-tts-cach" ++ [101]) = Some 101).
  { intros x. by rewrite app_assoc, last_snoc. }
  destruct (last (gettempdir h)) as [c|] eqn:Hg.
  - change (py "sam-tts-cach" ++ [101]) with (115 :: (py "am-tts-cach" ++ [101])).
    cbv iota beta.
    assert (Hs : last (gettempdir h ++ 47 :: py "sam-tts-cache") = Some 101).
    { change (47 :: py "sam-tts-cache") with (py "/sam-tts-cach" ++ [101]).
      by rewrite app_assoc, last_snoc. }
    assert (Ht : last (gettempdir h ++ py "sam-tts-cache") = Some 101) by apply Hl.
    destruct c as [|p]; [exact Hs|].
    repeat (destruct p as [p|p|]; try exact Hs; try exact Ht).
  - reflexivity.
Qed.

Lemma cache_path_of_hex (h : host) (key : pystr) :
  List.length key = 32%nat -> Forall (fun c => is_hex c = true) key ->
  cache_path h key = CACHE_DIR h ++ py "/" ++ key ++ py ".mp3".
Proof.
  intros Hl Hx. unfold cache_path, os_path_join.
  destruct key as [|c key']; [done|].
  assert (Hc : c <> 47).
  { inversion Hx as [|? ? Hcx _]; subst. intros ->. done. }
  rewrite CACHE_DIR_last.
  change ((c :: key') ++ py ".mp3") with (c :: (key' ++ py ".mp3")).
  destruct c as [|p]; [done|].
  repeat (destruct p as [p|p|]; try done).
Qed.

(** The key is a file name of the cache. *)
Lemma cache_key_shape (h : host) (voice text : pyval) (key : pystr) :
  cache_key h voice text = Some key ->
  List.length key = 32%nat /\
  Forall (fun c => is_hex c = true) key /\
  cache_path h key = CACHE_DIR h ++ py "/" ++ key ++ py ".mp3".
Proof.
  unfold cache_key. intros Hk.
  destruct (encode _) as [b|]; [|done]. simpl in Hk. inversion Hk; subst.
  pose proof (hexdigest_length b) as Hl. pose proof (hexdigest_hex b) as Hx.
  pose proof (cache_path_of_hex h _ Hl Hx) as Hp. done.
Qed.

Lemma cache_key_file (h : host) (voice text : pyval) (key : pystr) :
  cache_key h voice text = Some key -> cache_file h (cache_path h key).
Proof.
  intros Hk. destruct (cache_key_shape h voice text key Hk) as (Hl & Hx & Hp).
  by exists key.
Qed.

(** ** What one request does to the world *)

Section Effects.

Variable h : host.

(** The files after [speech]: the file of the key may have appeared,
    nothing else has changed. *)
Lemma speech_files voice text w q :
  files (speech h voice text w).2 !! q = files w !! q \/
  (files w !! q = None /\ cache_file h q).
Proof.
  unfold speech. destruct (cache_key h voice text) as [key|] eqn:Hk; [|by left].
  pose proof (cache_key_file h voice text key Hk) as Hf.
  unfold generate, serve_audio.
  destruct (files w !! cache_path h key) as [b0|] eqn:Hp; simpl.
  { rewrite Hp. by left. }
  destruct (run_args voice text (cache_path h key)) as [e|argv]; simpl; [by left|].
  destruct (decide (cache_path h key = q)) as [<-|Hne].
  { by right. }
  left.
  destruct (edge_tts h w argv) as [rc err [m|]|[m|]|e [m|]];
    try destruct (negb (rc =? 0)%Z); simpl;
    rewrite ?lookup_insert_eq, ?Hp; simpl; rewrite ?lookup_insert_ne; done.
Qed.

Lemma do_POST_files req w q :
  files (do_POST h req w).2 !! q = files w !! q \/
  (files w !! q = None /\ cache_file h q).
Proof.
  unfold do_POST.
  destruct (negb _); [by left|].
  destruct (read_body h req) as [e|body]; [by left|].
  destruct (json_loads h _) as [[| | | | | |data]| |]; try by left.
  destruct (negb _); [by left|]. apply speech_files.
Qed.

Lemma handle_one_request_files req w q :
  files (handle_one_request h req w).2 !! q = files w !! q \/
  (files w !! q = None /\ cache_file h q).
Proof.
  unfold handle_one_request.
  destruct (streq (command req) (py "GET")); [rewrite do_GET_world; by left|].
  destruct (streq _ _); [apply do_POST_files|by left].
Qed.

(** The calls of [speech]: a lookup, then maybe a run, then maybe a
    read, all of the file of the key. *)
Lemma speech_calls voice text w :
  exists new,
    calls (speech h voice text w).2 = new ++ calls w /\
    (new = [] \/
     exists p,
       cache_file h p /\
       match files w !! p with
       | Some _ => new = [open_rb p; os_path_exists p]
       | None =>
           new = [os_path_exists p] \/
           exists argv,
             named_run h (subprocess_run argv) /\ last argv = Some p /\
             (new = [subprocess_run argv; os_path_exists p] \/
              new = [open_rb p; subprocess_run argv; os_path_exists p])
       end).
Proof.
  unfold speech. destruct (cache_key h voice text) as [key|] eqn:Hk; [|exists []; by split; [|left]].
  pose proof (cache_key_file h voice text key Hk) as Hf.
  set (p := cache_path h key) in *.
  unfold generate, serve_audio.
  destruct (files w !! p) as [b0|] eqn:Hp; simpl.
  { rewrite Hp. exists [open_rb p; os_path_exists p]. split; [done|].
    right. exists p. by rewrite Hp. }
  destruct (run_args voice text p) as [e|argv] eqn:Ha; simpl.
  { exists [os_path_exists p]. split; [done|]. right. exists p. rewrite Hp. split; [done|by left]. }
  assert (Hn : named_run h (subprocess_run argv) /\ last argv = Some p).
  { destruct (run_args_inr _ _ _ _ Ha) as (v & t & -> & -> & Hv & Ht & ->).
    split; [|done]. by exists v, t, key. }
  destruct Hn as [Hn Hl].
  destruct (edge_tts h w argv) as [rc err [m|]|[m|]|e [m|]];
    try destruct (negb (rc =? 0)%Z); simpl;
    rewrite ?lookup_insert_eq, ?Hp; simpl;
    first
      [ exists [subprocess_run argv; os_path_exists p]; split; [done|];
        right; exists p; rewrite Hp; split; [done|]; right; exists argv;
        split; [done|]; split; [done|]; by left
      | exists [open_rb p; subprocess_run argv; os_path_exists p]; split; [done|];
        right; exists p; rewrite Hp; split; [done|]; right; exists argv;
        split; [done|]; split; [done|]; by right ].
Qed.

End Effects.

(** X6: whatever the voice and the text are, their key is 32 lowercase
    hexadecimal digits and the file of the key is [CACHE_DIR/<key>.mp3]:
    nothing of the request reaches the name of the file but through the
    digest. *)
Theorem X6_key_is_a_file_name (h : host) (voice text : pyval) (key : pystr) :
  cache_key h voice text = Some key ->
  List.length key = 32%nat /\
  Forall (fun c => is_hex c = true) key /\
  (47 ∉ key) /\
  cache_path h key = CACHE_DIR h ++ py "/" ++ key ++ py ".mp3".
Proof.
  intros Hk. destruct (cache_key_shape h voice text key Hk) as (Hl & Hx & Hp).
  repeat split; try done.
  intros Hin. rewrite Forall_forall in Hx. by specialize (Hx 47 Hin).
Qed.

Lemma X6_key_is_a_file_name_witness :
  cache_key (posix engine_up) (PyStr (py "../../etc")) (PyStr (py "/passwd")) =
    Some (py "6f26db7c4efee9c7f1218492df1318c0") /\
  cache_path (posix engine_up) (py "6f26db7c4efee9c7f1218492df1318c0") =
    py "/tmp/sam-tts-cache/6f26db7c4efee9c7f1218492df1318c0.mp3".
Proof.
  assert (Hk : cache_key (posix engine_up) (PyStr (py "../../etc")) (PyStr (py "/passwd")) =
               Some (py "6f26db7c4efee9c7f1218492df1318c0")) by (vm_compute; reflexivity).
  split; [exact Hk|].
  exact (proj2 (proj2 (proj2 (X6_key_is_a_file_name _ _ _ _ Hk)))).
Defined.

(** ** Across requests *)

Section Invariants.

Variable h : host.

Lemma do_POST_calls req w :
  exists new,
    calls (do_POST h req w).2 = new ++ calls w /\
    (new = [] \/
     exists p,
       cache_file h p /\
       match files w !! p with
       | Some _ => new = [open_rb p; os_path_exists p]
       | None =>
           new = [os_path_exists p] \/
           exists argv,
             named_run h (subprocess_run argv) /\ last argv = Some p /\
             (new = [subprocess_run argv; os_path_exists p] \/
              new = [open_rb p; subprocess_run argv; os_path_exists p])
       end).
Proof.
  unfold do_POST.
  destruct (negb _); [exists []; by split; [|left]|].
  destruct (read_body h req) as [e|body]; [exists []; by split; [|left]|].
  destruct (json_loads h _) as [[| | | | | |data]| |]; try (exists []; by split; [|left]).
  destruct (negb _); [exists []; by split; [|left]|]. apply speech_calls.
Qed.

Lemma do_POST_named_runs req w :
  Forall (named_run h) (calls w) -> Forall (named_run h) (calls (do_POST h req w).2).
Proof.
  intros Hw. destruct (do_POST_calls req w) as (new & -> & Hnew).
  apply Forall_app. split; [|done].
  destruct Hnew as [->|(p & _ & Hnew)]; [constructor|].
  destruct (files w !! p).
  - subst new. by repeat constructor.
  - destruct Hnew as [->|(argv & Hn & _ & [->| ->])]; by repeat constructor.
Qed.

End Invariants.

(** X4: in every world that the server reaches, each run of the engine
    that is recorded has the arguments [edge-tts --voice v --text t
    --write-media p] for two strings [v] and [t] without null character,
    with [p] the file of the key of ([v], [t]): the text is one argument,
    whatever it holds, and the file that a run writes is the one that
    requests for its voice and text read. *)
Theorem X4_runs_write_the_file_of_their_key (h : host) (reqs : list request) (w : world) :
  Forall (named_run h) (calls w) ->
  Forall (named_run h) (calls (serve_forever h reqs w).2).
Proof.
  revert w. induction reqs as [|req reqs IH]; intros w Hw; [done|].
  simpl.
  assert (H1 : Forall (named_run h) (calls (handle_one_request h req w).2)).
  { unfold handle_one_request.
    destruct (streq (command req) (py "GET")); [by rewrite do_GET_world|].
    destruct (streq _ _); [by apply do_POST_named_runs|done]. }
  destruct (handle_one_request h req w) as [out w1].
  specialize (IH w1 H1).
  by destruct (serve_forever h reqs w1) as [outs w2].
Qed.

Lemma X4_runs_write_the_file_of_their_key_witness :
  Forall (named_run (posix engine_down))
    (calls (serve_forever (posix engine_down)
              [POST (document "{'input': '--write-media /etc/passwd'}");
               POST (document "{'input': 'hello', 'voice': 5}")] nothing).2).
Proof.
  apply X4_runs_write_the_file_of_their_key. constructor.
Defined.

(** X5: with an engine that writes no file but the one it is told to
    write, the server never removes and never changes a file that is there;
    a file that appears while it serves is a file of the cache,
    [CACHE_DIR/<32 hexadecimal digits>.mp3]. *)
Theorem X5_files_appear_in_the_cache_only (h : host) (reqs : list request) (w : world)
    (q : pystr) :
  files (serve_forever h reqs w).2 !! q = files w !! q \/
  (files w !! q = None /\ cache_file h q).
Proof.
  revert w. induction reqs as [|req reqs IH]; intros w; [by left|].
  simpl.
  pose proof (handle_one_request_files h req w q) as H1.
  destruct (handle_one_request h req w) as [out w1].
  specialize (IH w1).
  destruct (serve_forever h reqs w1) as [outs w2]. simpl in *.
  destruct H1 as [H1|[H1 Hc]], IH as [H2|[H2 Hc']].
  - left. congruence.
  - right. split; [congruence|done].
  - by right.
  - by right.
Qed.

(** ** What the answers mean *)

(** X1: a request changes the world (a call is recorded or a file
    appears) only when it is a [POST] to [/v1/audio/speech] whose body is a
    JSON object with a text that is true in a condition, and whose voice
    and text can be encoded; every other request leaves the world as it
    is. *)
Theorem X1_only_speech_requests_change_the_world (h : host) (req : request) (w : world) :
  (handle_one_request h req w).2 <> w ->
  command req = py "POST" /\
  exists voice text key,
    speech_request h req voice text /\ cache_key h voice text = Some key.
Proof.
  unfold handle_one_request.
  destruct (streq (command req) (py "GET")) eqn:Hg; [by rewrite do_GET_world|].
  destruct (streq (command req) (py "POST")) eqn:Hc; [|done].
  apply streq_true in Hc. intros Hw. split; [done|]. revert Hw.
  unfold do_POST.
  destruct (streq (path req) (py "/v1/audio/speech")) eqn:Hp; [|done].
  apply streq_true in Hp. simpl.
  destruct (read_body h req) as [e|body] eqn:Hb; [done|].
  destruct (json_loads h body) as [[| | | | | |data]| |] eqn:Hl; try done.
  destruct (truthy (text_of data)) eqn:Ht; [|done]. simpl.
  unfold speech. destruct (cache_key h (voice_of h data) (text_of data)) as [key|] eqn:Hk; [|done].
  intros _. exists (voice_of h data), (text_of data), key. split; [|done].
  exists data. repeat split; try done. by exists body.
Qed.

Lemma X1_only_speech_requests_change_the_world_witness :
  let req := POST (document "{'input': 'hello'}") in
  command req = py "POST" /\
  exists voice text key,
    speech_request (posix engine_down) req voice text /\
    cache_key (posix engine_down) voice text = Some key.
Proof.
  intros req.
  apply (X1_only_speech_requests_change_the_world (posix engine_down) req nothing).
  vm_compute. discriminate.
Defined.

(** X2: what an error answer of [do_POST] tells.  404 is given for
    another path, 400 ["Invalid JSON"] for a body that [json.loads] refuses
    and 400 ["No text provided"] for an object whose text is false in a
    condition, all three before anything is done: the world is as it was.
    500 is given only after the engine has been run, once, for this request,
    for a file that was not there: with ["TTS timeout"] when the run was
    stopped, and with ["TTS failed: "] and the [stderr] of the run, which
    holds no character above U+00FF, when it exited with another status than
    0; no file is read for it.  No other code is sent. *)
Theorem X2_error_answers (h : host) (req : request) (w : world) (code : N)
    (message : option pystr) :
  (do_POST h req w).1 = send_error code message ->
  (code = 404 /\ message = None /\ path req <> py "/v1/audio/speech" /\
   (do_POST h req w).2 = w) \/
  (code = 400 /\ (do_POST h req w).2 = w /\
   ((message = Some (py "Invalid JSON") /\
     exists body, read_body h req = inr body /\ json_loads h body = JSONDecodeError) \/
    (message = Some (py "No text provided") /\
     exists data, object_request h req data /\ truthy (text_of data) = false))) \/
  (code = 500 /\
   exists p argv,
     files w !! p = None /\
     calls (do_POST h req w).2 = subprocess_run argv :: os_path_exists p :: calls w /\
     ((message = Some (py "TTS timeout") /\
       exists media, edge_tts h w argv = TimeoutExpired media) \/
      (exists returncode stderr media,
         message = Some (py "TTS failed: " ++ stderr) /\
         edge_tts h w argv = Completed returncode stderr media /\
         returncode <> 0%Z /\ latin1 stderr = true))).
Proof.
  unfold do_POST.
  destruct (streq (path req) (py "/v1/audio/speech")) eqn:Hpath; simpl.
  2: { intros Hr. inversion Hr. left. repeat split.
       intros Heq. rewrite Heq, streq_refl in Hpath. done. }
  apply streq_true in Hpath.
  destruct (read_body h req) as [e|body] eqn:Hb; [done|].
  destruct (json_loads h body) as [[| | | | | |data]| |] eqn:Hl; try done.
  2: { intros Hr. inversion Hr. right. left. repeat split. left. split; [done|].
       by exists body. }
  destruct (truthy (text_of data)) eqn:Ht; simpl.
  2: { intros Hr. inversion Hr. right. left. repeat split. right. split; [done|].
       exists data. split; [|done]. split; [done|]. by exists body. }
  unfold speech. destruct (cache_key h _ _) as [key|]; [|done].
  unfold generate, serve_audio.
  destruct (files w !! cache_path h key) as [b0|] eqn:Hp; simpl.
  { by rewrite Hp. }
  destruct (run_args _ _ _) as [e|argv]; simpl; [done|].
  destruct (edge_tts h w argv) as [rc err [m|]|[m|]|e [m|]] eqn:He;
    try destruct (rc =? 0)%Z eqn:Hrc; simpl;
    rewrite ?latin1_failed; try destruct (latin1 err) eqn:Hlat; simpl;
    rewrite ?lookup_insert_eq, ?Hp; simpl; try done;
    intros Hr; inversion Hr; right; right;
    (split; [done|]); exists (cache_path h key), argv;
    (split; [done|]); (split; [done|]);
    first
      [ left; split; [done|]; by eexists
      | right; eexists rc, err, _; repeat split; try done;
        intros ->; discriminate Hrc ].
Qed.

Lemma X2_error_answers_witness :
  let req := POST (document "{'input': 'hello'}") in
  let r := do_POST (posix engine_down) req nothing in
  r.1 = send_error 500 (Some (py "TTS failed: no connection")) /\
  exists p argv,
    files nothing !! p = None /\
    calls r.2 = subprocess_run argv :: os_path_exists p :: calls nothing /\
    ((Some (py "TTS failed: no connection") = Some (py "TTS timeout") /\
      exists media, engine_down nothing argv = TimeoutExpired media) \/
     (exists returncode stderr media,
        Some (py "TTS failed: no connection") = Some (py "TTS failed: " ++ stderr) /\
        engine_down nothing argv = Completed returncode stderr media /\
        returncode <> 0%Z /\ latin1 stderr = true)).
Proof.
  intros req r.
  assert (Hr : r.1 = send_error 500 (Some (py "TTS failed: no connection")))
    by (vm_compute; reflexivity).
  split; [exact Hr|].
  destruct (X2_error_answers (posix engine_down) req nothing _ _ Hr)
    as [(Hc & _)|[(Hc & _)|(_ & Hp)]]; [discriminate Hc|discriminate Hc|exact Hp].
Defined.

(** X3: the calls that one [POST] makes, latest first: none; or, for one
    file [p] of the cache, a lookup of [p] alone, a lookup and a read when
    [p] was there, and, when it was not, a lookup and a run that is told to
    write [p], then maybe a read: never more than one lookup, one run and
    one read, never a run for a file that is there, never a read without a
    lookup. *)
Theorem X3_calls_of_a_request (h : host) (req : request) (w : world) :
  exists new,
    calls (do_POST h req w).2 = new ++ calls w /\
    (new = [] \/
     exists p,
       cache_file h p /\
       match files w !! p with
       | Some _ => new = [open_rb p; os_path_exists p]
       | None =>
           new = [os_path_exists p] \/
           exists argv,
             last argv = Some p /\
             (new = [subprocess_run argv; os_path_exists p] \/
              new = [open_rb p; subprocess_run argv; os_path_exists p])
       end).
Proof.
  destruct (do_POST_calls h req w) as (new & Hc & Hnew).
  exists new. split; [done|].
  destruct Hnew as [->|(p & Hf & Hnew)]; [by left|].
  right. exists p. split; [done|].
  destruct (files w !! p); [done|].
  destruct Hnew as [->|(argv & _ & Hl & Hn)]; [by left|].
  right. by exists argv.
Qed.

(** ** What of the request matters *)

(** A request that is given in full is an [object_request] by
    computation. *)
Ltac object_request_by_computation :=
  split; [reflexivity|];
  match goal with
  | |- exists body, read_body _ ?req = _ /\ _ => exists (rfile req); split; vm_compute; reflexivity
  end.

(** X7: when the body has an ["input"], its ["text"] and every other
    field but ["voice"] are ignored: two requests whose bodies bind
    ["input"] to the same value and agree on ["voice"] get the same answer
    and leave the same world. *)
Theorem X7_input_hides_text (h : host) (req req' : request)
    (data data' : list (pystr * pyval)) (v : pyval) (w : world) :
  object_request h req data -> object_request h req' data' ->
  dict_lookup data (py "input") = Some v ->
  dict_lookup data' (py "input") = Some v ->
  dict_lookup data (py "voice") = dict_lookup data' (py "voice") ->
  do_POST h req w = do_POST h req' w.
Proof.
  intros Ho Ho' Hi Hi' Hv.
  rewrite (do_POST_object h req data w Ho), (do_POST_object h req' data' w Ho').
  unfold text_of, voice_of, dict_get. by rewrite Hi, Hi', Hv.
Qed.

Lemma X7_input_hides_text_witness :
  do_POST (posix engine_up)
    (POST (document "{'text': 'bye', 'input': 'hello', 'speed': 2}")) nothing =
  do_POST (posix engine_up) (POST (document "{'input': 'hello'}")) nothing.
Proof.
  apply (X7_input_hides_text (posix engine_up) _ _
           [(py "text", PyStr (py "bye")); (py "input", PyStr (py "hello"));
            (py "speed", PyInt 2)]
           [(py "input", PyStr (py "hello"))] (PyStr (py "hello"))).
  - object_request_by_computation.
  - object_request_by_computation.
  - reflexivity.
  - reflexivity.
  - reflexivity.
Defined.

(** X8: a body without ["voice"] is answered as the same body with
    ["voice"] bound to [VOICE]: same answer, same world, same cache
    entry. *)
Theorem X8_default_voice (h : host) (req req' : request)
    (data data' : list (pystr * pyval)) (w : world) :
  object_request h req data -> object_request h req' data' ->
  dict_lookup data (py "voice") = None ->
  dict_lookup data' (py "voice") = Some (PyStr (VOICE h)) ->
  text_of data = text_of data' ->
  do_POST h req w = do_POST h req' w.
Proof.
  intros Ho Ho' Hv Hv' Ht.
  rewrite (do_POST_object h req data w Ho), (do_POST_object h req' data' w Ho').
  unfold voice_of, dict_get. by rewrite Hv, Hv', Ht.
Qed.

Lemma X8_default_voice_witness :
  do_POST (posix engine_up) (POST (document "{'input': 'hello'}")) nothing =
  do_POST (posix engine_up)
    (POST (document "{'voice': 'en-US-AvaNeural', 'text': 'hello'}")) nothing.
Proof.
  apply (X8_default_voice (posix engine_up) _ _
           [(py "input", PyStr (py "hello"))]
           [(py "voice", PyStr (py "en-US-AvaNeural")); (py "text", PyStr (py "hello"))]).
  - object_request_by_computation.
  - object_request_by_computation.
  - reflexivity.
  - reflexivity.
  - reflexivity.
Defined.

(** [encode] fails on a surrogate, and on nothing else. *)
Lemma encode_surrogate (s : pystr) :
  Exists (fun c => is_surrogate c = true) s -> encode s = None.
Proof.
  induction 1 as [c s Hc|c s _ IH]; simpl.
  - assert (encode_char c = None) as ->; [|done].
    unfold is_surrogate in Hc. unfold encode_char.
    apply andb_prop in Hc as [H1 H2]. apply N.leb_le in H1. apply N.leb_le in H2.
    destruct (N.ltb_spec c 128); [lia|]. destruct (N.ltb_spec c 2048); [lia|].
    destruct (N.leb_spec 55296 c); [|lia]. by destruct (N.leb_spec c 57343); [|lia].
  - rewrite IH. by destruct (encode_char c).
Qed.

Lemma encode_no_surrogate (s : pystr) :
  Forall (fun c => is_surrogate c = false) s -> is_Some (encode s).
Proof.
  induction 1 as [|c s Hc _ [bs IH]]; simpl; [done|].
  rewrite IH. unfold encode_char, is_surrogate in *.
  destruct (c <? 128); [done|]. destruct (c <? 2048); [done|].
  rewrite Hc. by destruct (c <? 65536).
Qed.

(** X9: a voice or a text with a surrogate code point (JSON can spell
    one, as [\ud800]) cannot be encoded for the digest:
    [UnicodeEncodeError] leaves the handler before the cache is looked up,
    and the world is as it was.  Strings without surrogates always have a
    key. *)
Theorem X9_surrogates_have_no_key (h : host) (req : request)
    (data : list (pystr * pyval)) (v t : pystr) (w : world) :
  object_request h req data ->
  voice_of h data = PyStr v -> text_of data = PyStr t -> t <> [] ->
  (Exists (fun c => is_surrogate c = true) (v ++ t) ->
   do_POST h req w = (Uncaught UnicodeEncodeError, w)) /\
  (Forall (fun c => is_surrogate c = false) (v ++ t) ->
   is_Some (cache_key h (PyStr v) (PyStr t))).
Proof.
  intros Ho Hv Ht Hne. split.
  - intros Hs. rewrite (do_POST_object h req data w Ho), Hv, Ht.
    assert (truthy (PyStr t) = true) as -> by by destruct t.
    simpl. unfold speech, cache_key, format.
    rewrite encode_surrogate; [done|].
    apply Exists_app in Hs as [Hs|Hs]; apply Exists_app; [by left|right].
    apply Exists_app. by right.
  - intros Hs. unfold cache_key, format.
    apply Forall_app in Hs as [Hs1 Hs2].
    destruct (encode_no_surrogate (v ++ py ":" ++ t)) as [bs ->]; [|done].
    apply Forall_app. split; [done|]. apply Forall_app. split; [|done].
    by repeat constructor.
Qed.

Lemma X9_surrogates_have_no_key_witness :
  do_POST (posix engine_up) (POST (document "{'input': 'a\ud83d', 'voice': 'x'}")) nothing =
    (Uncaught UnicodeEncodeError, nothing).
Proof.
  refine (proj1 (X9_surrogates_have_no_key (posix engine_up) _
                   [(py "input", PyStr [97; 0xD83D]); (py "voice", PyStr (py "x"))]
                   (py "x") [97; 0xD83D] nothing _ _ _ _) _).
  - object_request_by_computation.
  - reflexivity.
  - reflexivity.
  - discriminate.
  - right. right. left. reflexivity.
Defined.

(** X10: a voice or a text that [subprocess.run] does not take passes the
    check of line 40 when it is true in a condition.  When the file of its
    key is not there, the lookup is all that happens, the engine is not run
    and no file changes: [TypeError] leaves the handler when the voice is
    not a string, or is a string without null character and the text is not
    a string; [ValueError] when both are strings and one holds a null
    character. *)
Theorem X10_refused_arguments (h : host) (req : request) (voice text : pyval)
    (key : pystr) (w : world) :
  speech_request h req voice text ->
  cache_key h voice text = Some key ->
  files w !! cache_path h key = None ->
  ((forall s, voice <> PyStr s) \/
   (exists v, voice = PyStr v /\ (0 ∉ v) /\ forall s, text <> PyStr s) ->
   do_POST h req w = (Uncaught TypeError, call (os_path_exists (cache_path h key)) w)) /\
  (forall v t, voice = PyStr v -> text = PyStr t -> 0 ∈ v \/ 0 ∈ t ->
   do_POST h req w = (Uncaught ValueError, call (os_path_exists (cache_path h key)) w)).
Proof.
  intros Hs Hk Hp. rewrite (do_POST_speech h req voice text w Hs).
  unfold speech. rewrite Hk. unfold generate. rewrite Hp. split.
  - intros Hn.
    assert (run_args voice text (cache_path h key) = inl TypeError) as ->; [|done].
    unfold run_args. destruct Hn as [Hn|(v & -> & Hv & Hn)].
    + destruct voice as [| | | |v| |]; try done. by destruct (Hn v).
    + rewrite (no_null v Hv).
      destruct text as [| | | |t| |]; try done. by destruct (Hn t).
  - intros v t -> -> Hz.
    assert (run_args (PyStr v) (PyStr t) (cache_path h key) = inl ValueError) as ->; [|done].
    unfold run_args. destruct (existsb (N.eqb 0) v) eqn:Hv; [done|].
    assert (existsb (N.eqb 0) t = true) as ->; [|done].
    apply existsb_exists. exists 0. split; [|done]. apply list_elem_of_In.
    destruct Hz as [Hz|Hz]; [|done].
    assert (existsb (N.eqb 0) v = true); [|congruence].
    apply existsb_exists. exists 0. split; [by apply list_elem_of_In|done].
Qed.

Lemma X10_refused_arguments_witness :
  let req := POST (document "{'input': 5}") in
  let p := py "/tmp/sam-tts-cache/964dff9920bcff422e3a4f9f98a43247.mp3" in
  do_POST (posix engine_up) req nothing = (Uncaught TypeError, call (os_path_exists p) nothing).
Proof.
  intros req p.
  refine (proj1 (X10_refused_arguments (posix engine_up) req
                   (PyStr (py "en-US-AvaNeural")) (PyInt 5)
                   (py "964dff9920bcff422e3a4f9f98a43247") nothing _ _ _) _).
  - exists [(py "input", PyInt 5)]. split; [object_request_by_computation|].
    repeat split; reflexivity.
  - vm_compute. reflexivity.
  - reflexivity.
  - right. exists (py "en-US-AvaNeural"). split; [reflexivity|]. split.
    + intros Hin. apply list_elem_of_In in Hin. vm_compute in Hin.
      repeat (destruct Hin as [Hin|Hin]; [discriminate Hin|]). exact Hin.
    + intros s. discriminate.
Defined.

(** X11: a run that fails and leaves no file is not remembered: no file
    has changed, and the same request made again runs the engine again. *)
Theorem X11_failure_is_not_cached (h : host) (req : request) (voice text : pyval)
    (key : pystr) (argv : list pystr) (w : world) :
  speech_request h req voice text ->
  cache_key h voice text = Some key ->
  files w !! cache_path h key = None ->
  run_args voice text (cache_path h key) = inr argv ->
  media_of (edge_tts h w argv) = None ->
  let w1 := (do_POST h req w).2 in
  files w1 = files w /\
  invocations w1 = S (invocations w) /\
  invocations (do_POST h req w1).2 = S (invocations w1).
Proof.
  intros Hs Hk Hp Ha Hm w1. subst w1.
  rewrite !(do_POST_speech h req voice text _ Hs).
  by apply (speech_run_without_file h voice text key argv).
Qed.

Lemma X11_failure_is_not_cached_witness :
  let req := POST (document "{'input': 'hello'}") in
  let w1 := (do_POST (posix engine_down) req nothing).2 in
  files w1 = files nothing /\
  invocations w1 = 1%nat /\
  invocations (do_POST (posix engine_down) req w1).2 = 2%nat.
Proof.
  intros req.
  apply (X11_failure_is_not_cached (posix engine_down) req
           (PyStr (py "en-US-AvaNeural")) (PyStr (py "hello"))
           (py "7e2ba67e85c4138ee62af73460473c44")
           [py "edge-tts"; py "--voice"; py "en-US-AvaNeural"; py "--text"; py "hello";
            py "--write-media"; py "/tmp/sam-tts-cache/7e2ba67e85c4138ee62af73460473c44.mp3"]
           nothing).
  - exists [(py "input", PyStr (py "hello"))]. split; [object_request_by_computation|].
    repeat split; reflexivity.
  - vm_compute. reflexivity.
  - reflexivity.
  - vm_compute. reflexivity.
  - reflexivity.
Defined.

(** ** The body that is read *)

(** X12: without a [Content-Length] header nothing of the body is read: the
    handler parses the empty string, whatever the client has sent, and
    answers what it answers to an empty body. *)
Theorem X12_no_content_length (h : host) (req : request) (w : world) :
  Content_Length req = None ->
  do_POST h req w =
    do_POST h {| command := command req; path := path req;
                 Content_Length := None; rfile := [] |} w.
Proof. intros Hc. unfold do_POST, read_body, content_length. simpl. by rewrite Hc. Qed.

Lemma X12_no_content_length_witness :
  let req := {| command := py "POST"; path := py "/v1/audio/speech"; Content_Length := None;
                rfile := document "{'input': 'hello'}" |} in
  do_POST (posix engine_up) req nothing = (send_error 400 (Some (py "Invalid JSON")), nothing).
Proof.
  intros req.
  exact (eq_trans (X12_no_content_length (posix engine_up) req nothing eq_refl) eq_refl).
Defined.

(** X13: with [Content-Length: n] the handler sees the first [n] bytes
    only: two requests that differ after them get the same answer and leave
    the same world. *)
Theorem X13_bytes_after_the_length_are_not_read (h : host) (req req' : request)
    (n : Z) (w : world) :
  path req = path req' ->
  content_length req = Some n -> content_length req' = Some n -> (0 <= n)%Z ->
  firstn (Z.to_nat n) (rfile req) = firstn (Z.to_nat n) (rfile req') ->
  do_POST h req w = do_POST h req' w.
Proof.
  intros Hp Hc Hc' Hn Hf. unfold do_POST, read_body. rewrite Hp, Hc, Hc'.
  unfold rfile_read.
  destruct (Z.ltb_spec n (-1)); [lia|]. destruct (Z.eqb_spec n (-1)); [lia|].
  by rewrite Hf.
Qed.

Lemma X13_bytes_after_the_length_are_not_read_witness :
  do_POST (posix engine_up)
    {| command := py "POST"; path := py "/v1/audio/speech"; Content_Length := Some (py "2");
       rfile := document "{}, 'input': 'hello'}" |} nothing =
  do_POST (posix engine_up) (POST (document "{}")) nothing.
Proof.
  apply (X13_bytes_after_the_length_are_not_read (posix engine_up) _ _ 2); reflexivity || lia.
Defined.

(** X14: the string that is hashed tells the pair apart as long as the
    voices hold no colon: two pairs of strings with such voices are joined
    to the same ["{voice}:{text}"] only when they are the same pair, so that
    only a collision of the digest can give them one key. *)
Theorem X14_joined_string_of_plain_voices (h : host) (v1 t1 v2 t2 : pystr) :
  58 ∉ v1 -> 58 ∉ v2 ->
  format h (PyStr v1) ++ py ":" ++ format h (PyStr t1) =
  format h (PyStr v2) ++ py ":" ++ format h (PyStr t2) ->
  v1 = v2 /\ t1 = t2.
Proof. apply joined_inj. Qed.

Lemma X14_joined_string_of_plain_voices_witness :
  py "en-US-AvaNeural" = py "en-US-AvaNeural" /\ py "a:b" = py "a:b".
Proof.
  apply (X14_joined_string_of_plain_voices (posix engine_up)); try reflexivity;
    intros Hin; apply list_elem_of_In in Hin; vm_compute in Hin;
    repeat (destruct Hin as [Hin|Hin]; [discriminate Hin|]); exact Hin.
Defined.

(** ** The length that is announced *)

Lemma lstrip_split (s : pystr) :
  exists pre, s = pre ++ lstrip s /\ Forall (fun c => isspace c = true) pre.
Proof.
  induction s as [|c s (pre & Hs & Hp)]; [by exists []|].
  simpl. destruct (isspace c) eqn:Hc.
  - exists (c :: pre). split; [by rewrite Hs at 1|by constructor].
  - by exists [].
Qed.

Lemma strip_split (s : pystr) :
  exists pre post,
    s = pre ++ strip s ++ post /\
    Forall (fun c => isspace c = true) pre /\ Forall (fun c => isspace c = true) post.
Proof.
  destruct (lstrip_split s) as (pre & Hs & Hpre).
  destruct (lstrip_split (rev (lstrip s))) as (pre2 & Hr & Hpre2).
  exists pre, (rev pre2). split; [|split; [done|]].
  - unfold strip. rewrite <- rev_app_distr, <- Hr, rev_involutive. exact Hs.
  - apply Forall_forall. intros c Hc. rewrite Forall_forall in Hpre2.
    apply Hpre2. apply list_elem_of_In. apply list_elem_of_In in Hc. by apply in_rev.
Qed.

Lemma digits_value_chars (s : pystr) (acc : N) (b : bool) (n : N) :
  digits_value acc b s = Some n -> Forall numeral_char s.
Proof.
  revert acc b. induction s as [|c s IH]; intros acc b Hn; [constructor|].
  cbn [digits_value] in Hn. destruct (isdigit c) eqn:Hd.
  - constructor; [by left|by eapply IH].
  - destruct ((c =? 95) && b) eqn:Hu; [|done].
    apply andb_prop in Hu as [Hc _]. apply N.eqb_eq in Hc.
    destruct s as [|d s']; [done|]. destruct (isdigit d) eqn:Hd'; [|done].
    constructor; [right; by left|by eapply IH].
Qed.

Lemma int_digits_chars (ds : pystr) (n : N) :
  int_digits ds = Some n -> Forall numeral_char ds.
Proof.
  unfold int_digits. destruct (_ <=? _)%nat; [|done]. apply digits_value_chars.
Qed.

Lemma py_int_chars (s : pystr) (n : Z) :
  py_int s = Some n -> Forall (fun c => isspace c = true \/ numeral_char c) s.
Proof.
  intros Hn.
  assert (Hs : Forall numeral_char (strip s)).
  { revert Hn. unfold py_int.
    assert (Hd : forall ds (f : N -> Z), f <$> int_digits ds = Some n -> Forall numeral_char ds).
    { intros ds f Hf. destruct (int_digits ds) as [m|] eqn:Hm; [|done].
      by eapply int_digits_chars. }
    destruct (strip s) as [|c ds] eqn:Hst; [constructor|].
    destruct (N.eq_dec c 45) as [->|H45].
    { intros Hf. constructor; [right; right; by right|by eapply Hd]. }
    destruct (N.eq_dec c 43) as [->|H43].
    { intros Hf. constructor; [right; right; by left|by eapply Hd]. }
    intros Hf. apply (Hd (c :: ds) Z.of_N).
    destruct c as [|p]; [exact Hf|].
    repeat (destruct p as [p|p|]; try exact Hf; try done). }
  destruct (strip_split s) as (pre & post & Heq & Hpre & Hpost).
  rewrite Heq. apply Forall_app. split; [|apply Forall_app; split].
  - eapply Forall_impl; [exact Hpre|]. intros c Hc. by left.
  - eapply Forall_impl; [exact Hs|]. intros c Hc. by right.
  - eapply Forall_impl; [exact Hpost|]. intros c Hc. by left.
Qed.

(** X15: line 28 comes before the parsing and has no handler of its own:
    what [int] or [read] raises leaves [do_POST], no answer is written, the
    body is not parsed and the world is as it was.  It is [ValueError] for a
    [Content-Length] with a character that is no blank, digit, underscore
    or sign (["12abc"], ["1.5"], ["0x10"]) and for one that reads as a
    number below -1 and not below -2^63; [OverflowError] for one that reads
    as a number below -2^63 or from 2^63 - 33 on; and [MemoryError] for
    one that reads as a number in between and above 0, for which the host
    has not the memory. *)
Theorem X15_bad_content_length (h : host) (req : request) (s : pystr) (w : world) :
  path req = py "/v1/audio/speech" ->
  Content_Length req = Some s ->
  ((exists c, c ∈ s /\ isspace c = false /\ ~ numeral_char c) ->
   do_POST h req w = (Uncaught ValueError, w)) /\
  (forall n, py_int s = Some n ->
     ((- 2 ^ 63 <= n < -1)%Z -> do_POST h req w = (Uncaught ValueError, w)) /\
     ((n < - 2 ^ 63 \/ 2 ^ 63 - 33 <= n)%Z ->
      do_POST h req w = (Uncaught OverflowError, w)) /\
     ((0 < n < 2 ^ 63 - 33)%Z -> malloc h n = false ->
      do_POST h req w = (Uncaught MemoryError, w))).
Proof.
  intros Hp Hc. unfold do_POST, read_body, content_length. rewrite Hp, Hc. simpl. split.
  - intros (c & Hin & Hsp & Hnum).
    destruct (py_int s) as [n|] eqn:Hn; [|done].
    apply py_int_chars in Hn. rewrite Forall_forall in Hn.
    destruct (Hn c Hin) as [Hs|Hs]; [congruence|done].
  - intros n ->. unfold rfile_read, PY_SSIZE_T_MAX, PyBytesObject_SIZE.
    destruct (Z.ltb_spec n (- 2 ^ 63)), (Z.ltb_spec (2 ^ 63 - 1) n),
      (Z.ltb_spec n (-1)), (Z.eqb_spec n (-1)), (Z.eqb_spec n 0),
      (Z.ltb_spec (2 ^ 63 - 1 - 33) n); simpl;
      (split; [|split]); try (intros; lia); try done;
      intros _ ->; done.
Qed.

Lemma X15_bad_content_length_witness :
  let post (s : pystr) := {| command := py "POST"; path := py "/v1/audio/speech";
                   Content_Length := Some s;
                   rfile := document "{'input': 'hello'}" |} in
  do_POST (posix engine_up) (post (py "18.0")) nothing = (Uncaught ValueError, nothing) /\
  do_POST (posix engine_up) (post (py "-2")) nothing = (Uncaught ValueError, nothing) /\
  do_POST (posix engine_up) (post (py "-100000000000000000000")) nothing =
    (Uncaught OverflowError, nothing) /\
  do_POST (posix engine_up) (post (py "9223372036854775807")) nothing =
    (Uncaught OverflowError, nothing) /\
  do_POST (posix engine_up) (post (py "1000000000000")) nothing =
    (Uncaught MemoryError, nothing).
Proof.
  intros post. split; [|split; [|split; [|split]]].
  - apply (X15_bad_content_length (posix engine_up) (post (py "18.0")) (py "18.0") nothing
             eq_refl eq_refl).
    exists 46. split; [|split].
    + apply list_elem_of_In. vm_compute. tauto.
    + reflexivity.
    + intros [H|[H|[H|H]]]; discriminate H.
  - apply (proj2 (X15_bad_content_length (posix engine_up) (post (py "-2")) (py "-2") nothing
                    eq_refl eq_refl) (-2)%Z eq_refl). lia.
  - apply (proj2 (X15_bad_content_length (posix engine_up) (post (py "-100000000000000000000"))
                    (py "-100000000000000000000") nothing eq_refl eq_refl)
             (-100000000000000000000)%Z eq_refl). lia.
  - apply (proj2 (X15_bad_content_length (posix engine_up) (post (py "9223372036854775807"))
                    (py "9223372036854775807") nothing eq_refl eq_refl)
             9223372036854775807%Z eq_refl). lia.
  - apply (proj2 (X15_bad_content_length (posix engine_up) (post (py "1000000000000"))
                    (py "1000000000000") nothing eq_refl eq_refl)
             1000000000000%Z eq_refl); [lia|reflexivity].
Defined.
